(** * Request forwarding tools of the ADCP TV ad server

    A shallow embedding of the tool functions of [server.py] and [main.py].
    Every tool builds one HTTP request from its arguments, sends it with
    the [requests] library, and turns the reply or the exception into the
    value it returns.

    Python is dynamically typed: an argument is a run-time value whatever
    its annotation says, so arguments are values of [pyval] and the
    annotations appear as predicates where a statement needs them. *)

From Stdlib Require Import ZArith List String Ascii Bool Lia.
From Stdlib Require Import DecimalString.
Import ListNotations.
Local Open Scope Z_scope.
Local Open Scope list_scope.
Local Open Scope string_scope.

(** ** Python values *)

(** A binary64 float, kept as its bit pattern: the tools only store floats
    and test them for truth. *)
Definition float64 := Z.

Definition float_is_zero (f : float64) : bool :=
  Z.eqb (Z.land f (Z.ones 63)) 0.

#[warnings="-register-all"]
Inductive pyval : Type :=
| PNone
| PBool (b : bool)
| PInt (z : Z)
| PFloat (f : float64)
| PStr (s : string)
| PList (l : list pyval)
| PDict (d : list (string * pyval)).

(** A [dict] keeps its keys in insertion order; the keys that occur here
    are strings. *)
Definition pydict := list (string * pyval).

Fixpoint dict_get (k : string) (d : pydict) : option pyval :=
  match d with
  | [] => None
  | (k', v) :: d' => if String.eqb k k' then Some v else dict_get k d'
  end.

(** [d[k] = v]: an existing key keeps its place, a new key goes last. *)
Fixpoint dict_set (k : string) (v : pyval) (d : pydict) : pydict :=
  match d with
  | [] => [(k, v)]
  | (k', v') :: d' =>
      if String.eqb k k' then (k, v) :: d' else (k', v') :: dict_set k v d'
  end.

(** The field [k] of a value, when the value is a dict that has it. *)
Definition field (k : string) (v : pyval) : option pyval :=
  match v with
  | PDict d => dict_get k d
  | _ => None
  end.

(** Truth value testing, as [if x], [not x] and [x or y] do it. *)
Definition truthy (v : pyval) : bool :=
  match v with
  | PNone => false
  | PBool b => b
  | PInt z => negb (Z.eqb z 0)
  | PFloat f => negb (float_is_zero f)
  | PStr s => negb (String.eqb s "")
  | PList l => match l with [] => false | _ :: _ => true end
  | PDict d => match d with [] => false | _ :: _ => true end
  end.

Definition py_or (a b : pyval) : pyval := if truthy a then a else b.

Definition is_none (v : pyval) : bool :=
  match v with PNone => true | _ => false end.

Definition type_name (v : pyval) : string :=
  match v with
  | PNone => "NoneType"
  | PBool _ => "bool"
  | PInt _ => "int"
  | PFloat _ => "float"
  | PStr _ => "str"
  | PList _ => "list"
  | PDict _ => "dict"
  end.

(** ** Exceptions *)

(** The classes below are all subclasses of [Exception]. *)
Inductive exn_class : Type :=
| Exception
| TypeError
| ValueError
| RequestException
| HTTPError
| ConnectionError
| Timeout
| JSONDecodeError
| RecursionError.

Record exn : Type := mk_exn { exn_cls : exn_class; exn_msg : string }.

(** [str(e)] *)
Definition str_exn (e : exn) : string := exn_msg e.

(** [issubclass c target], for the targets of the [except] clauses. *)
Definition issubclass (c target : exn_class) : bool :=
  match target with
  | Exception => true
  | ValueError =>
      match c with ValueError | JSONDecodeError => true | _ => false end
  | RequestException =>
      match c with
      | RequestException | HTTPError | ConnectionError | Timeout
      | JSONDecodeError => true
      | _ => false
      end
  | TypeError => match c with TypeError => true | _ => false end
  | HTTPError => match c with HTTPError => true | _ => false end
  | ConnectionError => match c with ConnectionError => true | _ => false end
  | Timeout => match c with Timeout => true | _ => false end
  | JSONDecodeError => match c with JSONDecodeError => true | _ => false end
  | RecursionError => match c with RecursionError => true | _ => false end
  end.

Inductive outcome (A : Type) : Type :=
| Return (a : A)
| Raise (e : exn).
Arguments Return {A} a.
Arguments Raise {A} e.

(** ** HTTP through [requests] *)

Record request : Type := mk_request {
  req_method : pyval;
  req_url : pyval;
  req_headers : pyval;
  req_params : pyval;
  req_json : pyval;
  req_timeout : Z
}.

(** What a tool observes of a [requests.Response]: [json_body] is the
    outcome of [response.json()], the decoded value or the exception the
    decoder raises: [JSONDecodeError] for text that is not JSON, and also
    others, such as [RecursionError] for text nested too deeply. *)
Record response : Type := mk_response {
  status_code : Z;
  reason : string;
  resp_url : string;
  text : string;
  json_body : pyval + exn
}.

(** What lies outside the program: the network and the backend ([send],
    which raises on a transport error or timeout), the clock ([today],
    the value of [str(date.today())]), and the interpreter's formatting of
    a value that is not a [str] inside an f-string, which gives the text
    or raises ([ValueError] for an [int] of more than 4300 digits,
    [RecursionError] for a value nested too deeply). *)
Record world : Type := mk_world {
  send : request -> outcome response;
  today : string;
  format_other : pyval -> outcome string
}.

(** A computation yields the requests it sent, in order, and returns or
    raises. *)
Definition io (A : Type) : Type := list request * outcome A.

Definition ret {A} (a : A) : io A := ([], Return a).

Definition throw {A} (e : exn) : io A := ([], Raise e).

Definition bind {A B} (m : io A) (k : A -> io B) : io B :=
  match m with
  | (log, Return a) => let (log', o) := k a in ((log ++ log')%list, o)
  | (log, Raise e) => (log, Raise e)
  end.

Notation "x <- m ;; k" := (bind m (fun x => k))
  (at level 61, m at next level, right associativity).
Notation "m ;;; k" := (bind m (fun _ => k))
  (at level 61, right associativity).

(** [try: body except cls as e: handler e] *)
Definition try_except {A} (body : io A) (cls : exn_class)
    (handler : exn -> io A) : io A :=
  match body with
  | (log, Return a) => (log, Return a)
  | (log, Raise e) =>
      if issubclass (exn_cls e) cls
      then let (log', o) := handler e in ((log ++ log')%list, o)
      else (log, Raise e)
  end.

Definition sent {A} (m : io A) : list request := fst m.
Definition result {A} (m : io A) : outcome A := snd m.

(** A [string] stands for the str it encodes in UTF-8. A byte [10xxxxxx]
    continues the character begun before it. *)
Definition continuation (c : ascii) : bool :=
  match c with
  | Ascii _ _ _ _ _ _ false true => true
  | _ => false
  end.

Definition starts_with_continuation (s : string) : bool :=
  match s with
  | EmptyString => false
  | String c _ => continuation c
  end.

(** The characters (code points) of a str, each as the str of that one
    character: the text is cut before every byte that begins a
    character. *)
Fixpoint str_chars (s : string) : list string :=
  match s with
  | EmptyString => []
  | String c rest =>
      if starts_with_continuation rest then
        match str_chars rest with
        | first :: others => String c first :: others
        | [] => [String c EmptyString]
        end
      else String c EmptyString :: str_chars rest
  end.

(** The items a value yields when it is iterated: the elements of a list,
    the characters of a str, the keys of a dict. *)
Definition items_of (v : pyval) : option (list pyval) :=
  match v with
  | PList l => Some l
  | PStr s => Some (map PStr (str_chars s))
  | PDict d => Some (map (fun kv => PStr (fst kv)) d)
  | _ => None
  end.

(** [for x in v]: the items, or the [TypeError] of a value that cannot be
    iterated. *)
Definition py_iter (v : pyval) : io (list pyval) :=
  match items_of v with
  | Some items => ret items
  | None => throw (mk_exn TypeError
                     ("'" ++ type_name v ++ "' object is not iterable"))
  end.

(** [[f x for x in v]] *)
Definition list_comp (f : pyval -> pyval) (v : pyval) : io pyval :=
  items <- py_iter v ;; ret (PList (map f items)).

(** [str(n)] of an [int]. *)
Definition str_int (n : Z) : string := NilZero.string_of_int (Z.to_int n).

(** A step that sends nothing. *)
Definition lift {A} (o : outcome A) : io A := ([], o).

(** [format(v, "")], the rendering of [{v}] in an f-string: a str is
    rendered as it is, another value by the interpreter, which may
    raise. *)
Definition py_format (w : world) (v : pyval) : outcome string :=
  match v with
  | PStr s => Return s
  | _ => format_other w v
  end.

(** [requests.request(method, url, headers=, params=, json=, timeout=)] *)
Definition requests_request (w : world) (method url headers params json : pyval)
    (timeout : Z) : io response :=
  let req := mk_request method url headers params json timeout in
  ([req], send w req).

(** [requests.get(url, params=, timeout=)] is [request("get", url, ...)]. *)
Definition requests_get (w : world) (url params : pyval) (timeout : Z)
    : io response :=
  requests_request w (PStr "get") url PNone params PNone timeout.

(** [requests.post(url, json=, timeout=)] is [request("post", url, ...)]. *)
Definition requests_post (w : world) (url json : pyval) (timeout : Z)
    : io response :=
  requests_request w (PStr "post") url PNone PNone json timeout.

(** [Response.raise_for_status] of the [requests] library: a message is
    built for a 4xx and for a 5xx status, and [HTTPError] is raised when
    there is a message. *)
Definition http_error_msg (r : response) : string :=
  if Z.leb 400 (status_code r) && Z.ltb (status_code r) 500 then
    str_int (status_code r) ++ " Client Error: " ++ reason r
      ++ " for url: " ++ resp_url r
  else if Z.leb 500 (status_code r) && Z.ltb (status_code r) 600 then
    str_int (status_code r) ++ " Server Error: " ++ reason r
      ++ " for url: " ++ resp_url r
  else "".

Definition raise_for_status (r : response) : io unit :=
  let msg := http_error_msg r in
  if negb (String.eqb msg "") then throw (mk_exn HTTPError msg) else ret tt.

(** [response.json()] *)
Definition response_json (r : response) : io pyval :=
  match json_body r with
  | inl v => ret v
  | inr e => throw e
  end.

(** A parameter with a default: [None] here is an argument the caller
    left out. *)
Definition arg (given : option pyval) (default : pyval) : pyval :=
  match given with
  | Some v => v
  | None => default
  end.

(** ** The tools of server.py *)

Module Server.

Definition BASE_URL : string := "http://localhost:8000".

(** The dict every ADCP tool returns from its [except] clause. *)
Definition adcp_failed (message : string) : pyval :=
  PDict [("protocol", PStr "adcp");
         ("version", PStr "2.3.0");
         ("status", PStr "failed");
         ("message", PStr message)].

Definition get_products (w : world) (query : pyval)
    (channel date_from date_to max_budget : option pyval) : io pyval :=
  let channel := arg channel PNone in
  let date_from := arg date_from PNone in
  let date_to := arg date_to PNone in
  let max_budget := arg max_budget PNone in
  let url := PStr (BASE_URL ++ "/api/v1/adcp/products") in
  let payload :=
    PDict [("query", query);
           ("channel", channel);
           ("date_from", py_or date_from (PStr (today w)));
           ("date_to", date_to);
           ("filters", PDict [("max_budget", max_budget)])] in
  try_except
    (response <- requests_post w url payload 15 ;;
     raise_for_status response ;;;
     response_json response)
    Exception
    (fun e => ret (adcp_failed ("Product discovery error: " ++ str_exn e))).

Definition create_media_buy (w : world)
    (name advertiser package_ids start_date end_date budget : pyval)
    (currency objectives : option pyval) : io pyval :=
  let currency := arg currency (PStr "MAD") in
  let objectives := arg objectives PNone in
  let url := PStr (BASE_URL ++ "/api/v1/adcp/media-buy") in
  packages <- list_comp (fun pid => PDict [("package_id", pid)]) package_ids ;;
  let payload :=
    PDict [("name", name);
           ("advertiser", advertiser);
           ("packages", packages);
           ("start_date", start_date);
           ("end_date", end_date);
           ("budget", budget);
           ("currency", currency);
           ("objectives",
            py_or objectives (PList [PStr "reach"; PStr "awareness"]));
           ("kpis", PDict [])] in
  try_except
    (response <- requests_post w url payload 15 ;;
     raise_for_status response ;;;
     response_json response)
    Exception
    (fun e => ret (adcp_failed ("Media buy creation error: " ++ str_exn e))).

Definition get_media_buy_delivery (w : world) (media_buy_id : pyval)
    : io pyval :=
  id_text <- lift (py_format w media_buy_id) ;;
  let url :=
    PStr (BASE_URL ++ "/api/v1/adcp/media-buy/" ++ id_text ++ "/delivery") in
  try_except
    (response <- requests_get w url PNone 10 ;;
     raise_for_status response ;;;
     response_json response)
    Exception
    (fun e => ret (adcp_failed ("Delivery data error: " ++ str_exn e))).

Definition discover_signals (w : world) (query : pyval)
    (signal_types min_scale : option pyval) : io pyval :=
  let signal_types := arg signal_types PNone in
  let min_scale := arg min_scale PNone in
  let url := PStr (BASE_URL ++ "/api/v1/adcp/signals/discover") in
  let payload :=
    PDict [("query", query);
           ("signal_types",
            py_or signal_types (PList [PStr "audience"; PStr "contextual"]));
           ("providers", PNone);
           ("filters", PDict [("min_scale", min_scale)])] in
  try_except
    (response <- requests_post w url payload 15 ;;
     raise_for_status response ;;;
     response_json response)
    Exception
    (fun e => ret (adcp_failed ("Signal discovery error: " ++ str_exn e))).

Definition activate_signal (w : world) (signal_id platform_ids : pyval)
    (config : option pyval) : io pyval :=
  let config := arg config PNone in
  let url := PStr (BASE_URL ++ "/api/v1/adcp/signals/activate") in
  platforms <- list_comp (fun pid => PDict [("platform_id", pid)]) platform_ids ;;
  let payload :=
    PDict [("signal_id", signal_id);
           ("platforms", platforms);
           ("config", py_or config (PDict []))] in
  try_except
    (response <- requests_post w url payload 15 ;;
     raise_for_status response ;;;
     response_json response)
    Exception
    (fun e => ret (adcp_failed ("Signal activation error: " ++ str_exn e))).

(** The comprehension's variable is also called [url]; it is local to the
    comprehension, and the request goes to the outer [url]. *)
Definition sync_creatives (w : world) (media_buy_id creative_urls : pyval)
    (assignments : option pyval) : io pyval :=
  let assignments := arg assignments PNone in
  let url := PStr (BASE_URL ++ "/api/v1/adcp/creatives/sync") in
  creatives <- list_comp (fun url' => PDict [("url", url')]) creative_urls ;;
  let payload :=
    PDict [("media_buy_id", media_buy_id);
           ("creatives", creatives);
           ("assignments", py_or assignments (PDict []))] in
  try_except
    (response <- requests_post w url payload 15 ;;
     raise_for_status response ;;;
     response_json response)
    Exception
    (fun e => ret (adcp_failed ("Creative sync error: " ++ str_exn e))).

Definition get_properties (w : world) (publisher_domain tags : option pyval)
    : io pyval :=
  let publisher_domain := arg publisher_domain PNone in
  let tags := arg tags PNone in
  let url := PStr (BASE_URL ++ "/api/v1/adcp/properties") in
  let params : pydict := [] in
  let params :=
    if truthy publisher_domain
    then dict_set "publisher_domain" publisher_domain params else params in
  let params := if truthy tags then dict_set "tags" tags params else params in
  try_except
    (response <- requests_get w url (PDict params) 10 ;;
     raise_for_status response ;;;
     response_json response)
    Exception
    (fun e => ret (adcp_failed ("Property discovery error: " ++ str_exn e))).

Definition get_channels (w : world) : io pyval :=
  let url := PStr (BASE_URL ++ "/api/v1/channels") in
  try_except
    (response <- requests_get w url PNone 10 ;;
     raise_for_status response ;;;
     response_json response)
    Exception
    (fun e => ret (PDict [("error", PStr (str_exn e))])).

Definition get_epg_shows (w : world) (channel : pyval)
    (query_date : option pyval) : io pyval :=
  let query_date := arg query_date PNone in
  let query_date :=
    if negb (truthy query_date) then PStr (today w) else query_date in
  let url := PStr (BASE_URL ++ "/api/v1/programs") in
  let params := PDict [("channel", channel); ("date", query_date)] in
  try_except
    (response <- requests_get w url params 10 ;;
     raise_for_status response ;;;
     response_json response)
    Exception
    (fun e => ret (PDict [("error", PStr (str_exn e))])).

Definition get_adbreaks (w : world) (available : option pyval) : io pyval :=
  let available := arg available PNone in
  let url := PStr (BASE_URL ++ "/api/v1/adbreaks") in
  let params : pydict := [] in
  let params :=
    if negb (is_none available)
    then dict_set "available" available params else params in
  try_except
    (response <- requests_get w url (PDict params) 10 ;;
     raise_for_status response ;;;
     response_json response)
    Exception
    (fun e => ret (PDict [("error", PStr (str_exn e))])).

Definition get_inventory (w : world) (channel query_date : pyval)
    (region : option pyval) : io pyval :=
  let region := arg region PNone in
  let url := PStr (BASE_URL ++ "/api/v1/inventory") in
  let params : pydict := [("channel", channel); ("date", query_date)] in
  let params :=
    if truthy region then dict_set "region" region params else params in
  try_except
    (response <- requests_get w url (PDict params) 10 ;;
     raise_for_status response ;;;
     response_json response)
    Exception
    (fun e => ret (PDict [("error", PStr (str_exn e))])).

Definition book_ad (w : world) (inventory_id : pyval) : io pyval :=
  let url := PStr (BASE_URL ++ "/api/v1/book_ad") in
  try_except
    (response <-
       requests_post w url (PDict [("inventory_id", inventory_id)]) 10 ;;
     raise_for_status response ;;;
     response_json response)
    Exception
    (fun e => ret (PDict [("error", PStr (str_exn e))])).

Definition get_api_data (w : world) (url : pyval)
    (method headers params body : option pyval) : io pyval :=
  let method := arg method (PStr "GET") in
  let headers := arg headers PNone in
  let params := arg params PNone in
  let body := arg body PNone in
  try_except
    (response <- requests_request w method url headers params body 10 ;;
     raise_for_status response ;;;
     try_except
       (response_json response)
       ValueError
       (fun _ => ret (PDict [("text", PStr (text response))])))
    Exception
    (fun e => ret (PDict [("error", PStr (str_exn e))])).

End Server.

(** ** The tools of main.py *)

Module Main.

Definition get_epg_shows (w : world) (channel : pyval)
    (query_date : option pyval) : io pyval :=
  let query_date := arg query_date PNone in
  let query_date :=
    if negb (truthy query_date) then PStr (today w) else query_date in
  let url := PStr "http://localhost:8000/api/v1/programs" in
  let params := PDict [("channel", channel); ("date", query_date)] in
  try_except
    (response <- requests_get w url params 10 ;;
     raise_for_status response ;;;
     response_json response)
    Exception
    (fun e => ret (PDict [("error", PStr (str_exn e))])).

Definition get_solded_adbreaks (w : world) (available : pyval) : io pyval :=
  let url := PStr "http://localhost:8000/api/v1/adbreaks" in
  let params := PDict [("available", available)] in
  try_except
    (response <- requests_get w url params 10 ;;
     raise_for_status response ;;;
     response_json response)
    Exception
    (fun e => ret (PDict [("error", PStr (str_exn e))])).

Definition get_channels (w : world) : io pyval :=
  let url := PStr "http://localhost:8000/api/v1/channels" in
  try_except
    (response <- requests_get w url PNone 10 ;;
     raise_for_status response ;;;
     response_json response)
    Exception
    (fun e => ret (PDict [("error", PStr (str_exn e))])).

Definition get_api_data (w : world) (url : pyval)
    (method headers params body : option pyval) : io pyval :=
  let method := arg method (PStr "GET") in
  let headers := arg headers PNone in
  let params := arg params PNone in
  let body := arg body PNone in
  try_except
    (response <- requests_request w method url headers params body 10 ;;
     raise_for_status response ;;;
     try_except
       (response_json response)
       ValueError
       (fun _ => ret (PDict [("text", PStr (text response))])))
    Exception
    (fun e => ret (PDict [("error", PStr (str_exn e))])).

End Main.

(** ** Tool calls *)

(** A call of one registered tool with its arguments; a parameter that has
    a default is given as [Some v] or left out as [None]. *)
Inductive tool_call : Type :=
| GetProducts (query : pyval)
    (channel date_from date_to max_budget : option pyval)
| CreateMediaBuy (name advertiser package_ids start_date end_date budget : pyval)
    (currency objectives : option pyval)
| GetMediaBuyDelivery (media_buy_id : pyval)
| DiscoverSignals (query : pyval) (signal_types min_scale : option pyval)
| ActivateSignal (signal_id platform_ids : pyval) (config : option pyval)
| SyncCreatives (media_buy_id creative_urls : pyval)
    (assignments : option pyval)
| GetProperties (publisher_domain tags : option pyval)
| GetChannels
| GetEpgShows (channel : pyval) (query_date : option pyval)
| GetAdbreaks (available : option pyval)
| GetInventory (channel query_date : pyval) (region : option pyval)
| BookAd (inventory_id : pyval)
| GetApiData (url : pyval) (method headers params body : option pyval)
| MainGetEpgShows (channel : pyval) (query_date : option pyval)
| MainGetSoldedAdbreaks (available : pyval)
| MainGetChannels
| MainGetApiData (url : pyval) (method headers params body : option pyval).

Definition call (w : world) (c : tool_call) : io pyval :=
  match c with
  | GetProducts query channel date_from date_to max_budget =>
      Server.get_products w query channel date_from date_to max_budget
  | CreateMediaBuy name advertiser package_ids start_date end_date budget
      currency objectives =>
      Server.create_media_buy w name advertiser package_ids start_date
        end_date budget currency objectives
  | GetMediaBuyDelivery media_buy_id =>
      Server.get_media_buy_delivery w media_buy_id
  | DiscoverSignals query signal_types min_scale =>
      Server.discover_signals w query signal_types min_scale
  | ActivateSignal signal_id platform_ids config =>
      Server.activate_signal w signal_id platform_ids config
  | SyncCreatives media_buy_id creative_urls assignments =>
      Server.sync_creatives w media_buy_id creative_urls assignments
  | GetProperties publisher_domain tags =>
      Server.get_properties w publisher_domain tags
  | GetChannels => Server.get_channels w
  | GetEpgShows channel query_date => Server.get_epg_shows w channel query_date
  | GetAdbreaks available => Server.get_adbreaks w available
  | GetInventory channel query_date region =>
      Server.get_inventory w channel query_date region
  | BookAd inventory_id => Server.book_ad w inventory_id
  | GetApiData url method headers params body =>
      Server.get_api_data w url method headers params body
  | MainGetEpgShows channel query_date => Main.get_epg_shows w channel query_date
  | MainGetSoldedAdbreaks available => Main.get_solded_adbreaks w available
  | MainGetChannels => Main.get_channels w
  | MainGetApiData url method headers params body =>
      Main.get_api_data w url method headers params body
  end.

(** ** The vocabulary of the specification *)

Inductive family : Type := Adcp | Legacy | Passthrough.

Definition family_of (c : tool_call) : family :=
  match c with
  | GetProducts _ _ _ _ _ | CreateMediaBuy _ _ _ _ _ _ _ _
  | GetMediaBuyDelivery _ | DiscoverSignals _ _ _ | ActivateSignal _ _ _
  | SyncCreatives _ _ _ | GetProperties _ _ => Adcp
  | GetChannels | GetEpgShows _ _ | GetAdbreaks _ | GetInventory _ _ _
  | BookAd _ | MainGetEpgShows _ _ | MainGetSoldedAdbreaks _
  | MainGetChannels => Legacy
  | GetApiData _ _ _ _ _ | MainGetApiData _ _ _ _ _ => Passthrough
  end.

Definition is_passthrough (c : tool_call) : bool :=
  match family_of c with Passthrough => true | _ => false end.

(** The text an ADCP tool puts before the exception's message. *)
Definition error_prefix (c : tool_call) : string :=
  match c with
  | GetProducts _ _ _ _ _ => "Product discovery error: "
  | CreateMediaBuy _ _ _ _ _ _ _ _ => "Media buy creation error: "
  | GetMediaBuyDelivery _ => "Delivery data error: "
  | DiscoverSignals _ _ _ => "Signal discovery error: "
  | ActivateSignal _ _ _ => "Signal activation error: "
  | SyncCreatives _ _ _ => "Creative sync error: "
  | GetProperties _ _ => "Property discovery error: "
  | _ => ""
  end.

Definition bare_error (message : string) : pyval :=
  PDict [("error", PStr message)].

Definition text_fallback (r : response) : pyval :=
  PDict [("text", PStr (text r))].

(** The error envelope of a tool's family for an exception message. *)
Definition failure_envelope (c : tool_call) (message : string) : pyval :=
  match family_of c with
  | Adcp => Server.adcp_failed (error_prefix c ++ message)
  | Legacy | Passthrough => bare_error message
  end.

(** A status for which [raise_for_status] raises. *)
Definition error_status (r : response) : Prop :=
  400 <= status_code r < 600.

(** What a [try] block returns for an outcome of its HTTP call, when its
    [except] clause returns [handler e] and an exception of the decoder
    is answered by [on_invalid]. *)
Definition settle_with (handler : exn -> pyval)
    (on_invalid : response -> exn -> pyval) (o : outcome response)
    : pyval :=
  match o with
  | Raise e => handler e
  | Return r =>
      if negb (String.eqb (http_error_msg r) "")
      then handler (mk_exn HTTPError (http_error_msg r))
      else
        match json_body r with
        | inl v => v
        | inr e => on_invalid r e
        end
  end.

(** What the passthrough returns when the decoder raises [e]: the text
    fallback for a [ValueError], the error dict for anything else. *)
Definition passthrough_invalid (r : response) (e : exn) : pyval :=
  if issubclass (exn_cls e) ValueError then text_fallback r
  else bare_error (str_exn e).

(** What a tool returns for an outcome of its one HTTP call. *)
Definition settle (c : tool_call) (o : outcome response) : pyval :=
  settle_with (fun e => failure_envelope c (str_exn e))
    (fun r e =>
       if is_passthrough c then passthrough_invalid r e
       else failure_envelope c (str_exn e))
    o.

(** The three shapes of a result envelope, for the outcome [o] of the HTTP
    call: the decoded body, the text fallback, an error object. *)
Inductive envelope (o : outcome response) : pyval -> Prop :=
| env_decoded r v :
    o = Return r -> json_body r = inl v -> envelope o v
| env_text r :
    o = Return r -> envelope o (text_fallback r)
| env_error message :
    envelope o (bare_error message)
| env_adcp_failed message :
    envelope o (Server.adcp_failed message).

Definition iterable (v : pyval) : bool :=
  match items_of v with Some _ => true | None => false end.

(** The arguments a tool iterates when it builds its payload: the ones
    annotated [List[str]]. *)
Definition list_args (c : tool_call) : list pyval :=
  match c with
  | CreateMediaBuy _ _ package_ids _ _ _ _ _ => [package_ids]
  | ActivateSignal _ platform_ids _ => [platform_ids]
  | SyncCreatives _ creative_urls _ => [creative_urls]
  | _ => []
  end.

Definition lists_iterable (c : tool_call) : bool :=
  forallb iterable (list_args c).

(** The arguments a tool formats into its URL before the [try] block. *)
Definition format_args (c : tool_call) : list pyval :=
  match c with
  | GetMediaBuyDelivery media_buy_id => [media_buy_id]
  | _ => []
  end.

Definition formats (w : world) (v : pyval) : bool :=
  match py_format w v with Return _ => true | Raise _ => false end.

(** The statements before the [try] block run through: the list
    arguments can be iterated and the formatted ones can be formatted. *)
Definition builds (w : world) (c : tool_call) : bool :=
  lists_iterable c && forallb (formats w) (format_args c).

Definition is_list (v : pyval) : bool :=
  match v with PList _ => true | _ => false end.

Definition is_str (v : pyval) : bool :=
  match v with PStr _ => true | _ => false end.

(** The arguments used before the [try] block have their declared types:
    a list where [List[str]] is declared, a str for an id put in the
    URL. *)
Definition typed_as_declared (c : tool_call) : bool :=
  forallb is_list (list_args c) && forallb is_str (format_args c).

(** [s] occurs in [t]. *)
Definition contains (s t : string) : Prop :=
  exists before after, t = before ++ s ++ after.

(** ** Sample worlds *)

Definition int_too_long : exn :=
  mk_exn ValueError
    "Exceeds the limit (4300 digits) for integer string conversion; use sys.set_int_max_str_digits() to increase the limit".

(** A stand-in for the interpreter's formatting, right on [None], [bool]
    and [int]; an [int] of more than 4300 digits is refused. *)
Definition format_scalar (v : pyval) : outcome string :=
  match v with
  | PNone => Return "None"
  | PBool true => Return "True"
  | PBool false => Return "False"
  | PInt z =>
      if Z.ltb (Z.abs z) (10 ^ 4300) then Return (str_int z)
      else Raise int_too_long
  | _ => Return ("<" ++ type_name v ++ ">")
  end.

Definition sample_day : string := "2025-03-06".

(** A backend that answers every request with [r]. *)
Definition replying (r : response) : world :=
  mk_world (fun _ => Return r) sample_day format_scalar.

(** No backend is listening. *)
Definition offline : world :=
  mk_world
    (fun _ => Raise (mk_exn ConnectionError "Connection refused"))
    sample_day format_scalar.

(** What the decoder raises for text that does not begin a JSON value. *)
Definition not_json : exn :=
  mk_exn JSONDecodeError "Expecting value: line 1 column 1 (char 0)".

(** What the decoder raises for arrays nested too deeply. *)
Definition too_deep : exn :=
  mk_exn RecursionError
    "maximum recursion depth exceeded while decoding a JSON array from a unicode string".

(** The text of [depth] opening brackets. *)
Definition nested_arrays (depth : N) : string :=
  N.iter depth (String "["%char) EmptyString.

(** A 200 reply whose body is 200000 opening brackets: not JSON, and too
    deep for the decoder to find that out. *)
Definition ok_nested : response :=
  mk_response 200 "OK" "http://example.org/" (nested_arrays 200000)
    (inr too_deep).

Definition ok_json : response :=
  mk_response 200 "OK" "http://localhost:8000/api/v1/channels"
    "{}" (inl (PDict [])).

Definition ok_html : response :=
  mk_response 200 "OK" "http://example.org/" "<html></html>"
    (inr not_json).

Definition not_found : response :=
  mk_response 404 "Not Found" "http://localhost:8000/missing"
    "Not Found" (inr not_json).

Definition not_modified : response :=
  mk_response 304 "Not Modified" "http://localhost:8000/api/v1/channels"
    "" (inr not_json).

(** A backend that answers [r] to requests with a ten second timeout and
    is unreachable for the others. *)
Definition replying_to_lookups (r : response) : world :=
  mk_world
    (fun req => if Z.eqb (req_timeout req) 10 then Return r
                else Raise (mk_exn Timeout "Read timed out."))
    sample_day format_scalar.

(** ** Sample calls *)

(** The campaign of the usage examples, with the given package ids. *)
Definition spring_sale (package_ids : pyval) : tool_call :=
  CreateMediaBuy (PStr "Spring Sale 2025") (PStr "Marjane") package_ids
    (PStr "2025-03-01") (PStr "2025-03-31") (PInt 500000) None None.

(** A conditional fetch through the passthrough. *)
Definition conditional_get : tool_call :=
  GetApiData (PStr "http://localhost:8000/api/v1/channels") None
    (Some (PDict [("If-None-Match", PStr "v1")])) None None.

Definition fetch_page : tool_call :=
  GetApiData (PStr "http://example.org/") None None None None.

(** ** Kinds of tools *)

(** The tools that change something on the backend. *)
Definition mutating (c : tool_call) : bool :=
  match c with
  | CreateMediaBuy _ _ _ _ _ _ _ _ | ActivateSignal _ _ _
  | SyncCreatives _ _ _ | BookAd _ => true
  | _ => false
  end.

(** The ADCP tools that post a payload. *)
Definition posts_payload (c : tool_call) : bool :=
  match c with
  | GetProducts _ _ _ _ _ | CreateMediaBuy _ _ _ _ _ _ _ _
  | DiscoverSignals _ _ _ | ActivateSignal _ _ _ | SyncCreatives _ _ _ => true
  | _ => false
  end.

(** The calls that take the date from the clock: the tools with a date
    default, when the date given is missing or falsy. *)
Definition reads_clock (c : tool_call) : bool :=
  match c with
  | GetProducts _ _ date_from _ _ => negb (truthy (arg date_from PNone))
  | GetEpgShows _ query_date | MainGetEpgShows _ query_date =>
      negb (truthy (arg query_date PNone))
  | _ => false
  end.

(** Two calls of the same tool. *)
Definition same_tool (c1 c2 : tool_call) : bool :=
  match c1, c2 with
  | GetProducts _ _ _ _ _, GetProducts _ _ _ _ _
  | CreateMediaBuy _ _ _ _ _ _ _ _, CreateMediaBuy _ _ _ _ _ _ _ _
  | GetMediaBuyDelivery _, GetMediaBuyDelivery _
  | DiscoverSignals _ _ _, DiscoverSignals _ _ _
  | ActivateSignal _ _ _, ActivateSignal _ _ _
  | SyncCreatives _ _ _, SyncCreatives _ _ _
  | GetProperties _ _, GetProperties _ _
  | GetChannels, GetChannels
  | GetEpgShows _ _, GetEpgShows _ _
  | GetAdbreaks _, GetAdbreaks _
  | GetInventory _ _ _, GetInventory _ _ _
  | BookAd _, BookAd _
  | GetApiData _ _ _ _ _, GetApiData _ _ _ _ _
  | MainGetEpgShows _ _, MainGetEpgShows _ _
  | MainGetSoldedAdbreaks _, MainGetSoldedAdbreaks _
  | MainGetChannels, MainGetChannels
  | MainGetApiData _ _ _ _ _, MainGetApiData _ _ _ _ _ => true
  | _, _ => false
  end.

(** The world [w] on another day. *)
Definition on_day (w : world) (day : string) : world :=
  mk_world (send w) day (format_other w).

Definition api_prefix : string := "http://localhost:8000/api/v1/".

(** ** The resource and the prompt of main.py *)

Module MainText.

Definition get_greeting (w : world) (name : pyval) : io string :=
  name_text <- lift (py_format w name) ;;
  ret ("Hello, " ++ name_text ++ "!").

(** [d.get(key, default)] on a dict with str keys: a list or a dict cannot
    be hashed, any other key that is not a str equals no key of [d]. *)
Definition dict_get_default (d : pydict) (key default : pyval) : io pyval :=
  match key with
  | PStr k =>
      ret (match dict_get k d with Some v => v | None => default end)
  | PList _ | PDict _ =>
      throw (mk_exn TypeError ("unhashable type: '" ++ type_name key ++ "'"))
  | _ => ret default
  end.

(** A value that can be a dict key. *)
Definition hashable (v : pyval) : bool :=
  match v with
  | PList _ | PDict _ => false
  | _ => true
  end.

Definition styles : pydict :=
  [("friendly", PStr "Please write a warm, friendly greeting");
   ("formal", PStr "Please write a formal, professional greeting");
   ("casual", PStr "Please write a casual, relaxed greeting")].

(** [styles['friendly']]; the key is there. *)
Definition styles_friendly : pyval :=
  match dict_get "friendly" styles with Some v => v | None => PNone end.

Definition greet_user (w : world) (name : pyval) (style : option pyval)
    : io string :=
  let style := arg style (PStr "friendly") in
  chosen <- dict_get_default styles style styles_friendly ;;
  chosen_text <- lift (py_format w chosen) ;;
  name_text <- lift (py_format w name) ;;
  ret (chosen_text ++ " for someone named " ++ name_text ++ ".").

End MainText.

(** ** The handler of utils.py *)

Module Utils.

(** What can leave a method of utils.py: an exception of the classes
    above, or an [AttributeError]. *)
Inductive fault : Type :=
| Known (e : exn)
| AttributeError (message : string).

Inductive attempt (A : Type) : Type :=
| Done (a : A)
| Failed (f : fault).
Arguments Done {A} a.
Arguments Failed {A} f.

Definition and_then {A B} (m : attempt A) (k : A -> attempt B) : attempt B :=
  match m with
  | Done a => k a
  | Failed f => Failed f
  end.

Notation "x <~ m ;; k" := (and_then m (fun x => k))
  (at level 61, m at next level, right associativity).

(** The API client passed to [ADCPHandler]: its [get(path, params)],
    which returns the response or raises. *)
Record api_client : Type := mk_api_client {
  api_get : pyval -> option pyval -> outcome pyval
}.

Definition client_get (api : api_client) (path : pyval)
    (params : option pyval) : attempt pyval :=
  match api_get api path params with
  | Return v => Done v
  | Raise e => Failed (Known e)
  end.

(** [{**base, **extra}]: the keys of [extra] are set one after the
    other. *)
Definition dict_update (base extra : pydict) : pydict :=
  fold_left (fun d kv => dict_set (fst kv) (snd kv) d) extra base.

(** [**v] inside a dict display. *)
Definition unpack_mapping (v : pyval) : attempt pydict :=
  match v with
  | PDict d => Done d
  | _ => Failed (Known (mk_exn TypeError
                          ("'" ++ type_name v ++ "' object is not a mapping")))
  end.

(** [v.get(key)] *)
Definition method_get (v : pyval) (key : string) : attempt pyval :=
  match v with
  | PDict d =>
      Done (match dict_get key d with Some x => x | None => PNone end)
  | _ => Failed (AttributeError
                   ("'" ++ type_name v ++ "' object has no attribute 'get'"))
  end.

(** An f-string field inside a method of utils.py. *)
Definition formatted (w : world) (v : pyval) : attempt string :=
  match py_format w v with
  | Return text => Done text
  | Raise e => Failed (Known e)
  end.

(** [v == "s"] *)
Definition equals_str (v : pyval) (s : string) : bool :=
  match v with
  | PStr s' => String.eqb s' s
  | _ => false
  end.

Definition _fetch_ad_data (api : api_client) (context_id filters : pyval)
    : attempt pyval :=
  extra <~ unpack_mapping (py_or filters (PDict [])) ;;
  let params := PDict (dict_update [("context_id", context_id)] extra) in
  client_get api (PStr "/ad-context") (Some params).

Definition _get_metadata (context_id : pyval) : pyval :=
  PDict [("source", PStr "your_api");
         ("version", PStr "1.0");
         ("context_type", PStr "advertising")].

(** [now] is the value of [datetime.utcnow().isoformat()]. *)
Definition get_ad_context (api : api_client) (now : string)
    (context_id : pyval) (filters : option pyval) : attempt pyval :=
  let filters := arg filters PNone in
  data <~ _fetch_ad_data api context_id filters ;;
  Done (PDict [("protocol", PStr "adcp/1.0");
               ("context_id", context_id);
               ("timestamp", PStr now);
               ("data", data);
               ("metadata", _get_metadata context_id)]).

Definition get_available_inventory (api : api_client) (channel date : pyval)
    : attempt pyval :=
  inventory <~ client_get api (PStr "/inventory")
                 (Some (PDict [("channel", channel); ("date", date)])) ;;
  Done (PDict [("protocol", PStr "adcp/1.0");
               ("type", PStr "inventory");
               ("channel", channel);
               ("date", date);
               ("inventory", inventory)]).

Definition get_campaign_context (w : world) (api : api_client)
    (campaign_id : pyval) : attempt pyval :=
  id_text <~ formatted w campaign_id ;;
  data <~ client_get api (PStr ("/campaigns/" ++ id_text)) None ;;
  Done (PDict [("protocol", PStr "adcp/1.0");
               ("type", PStr "campaign");
               ("campaign_id", campaign_id);
               ("data", data)]).

(** The body of the coroutine [MCPServer.handle_tool_call]; it awaits
    nothing. [api] is the client of [self.adcp_handler]. *)
Definition handle_tool_call (w : world) (api : api_client) (now : string)
    (tool_name arguments : pyval) : attempt pyval :=
  if equals_str tool_name "get_ad_context" then
    context_id <~ method_get arguments "context_id" ;;
    filters <~ method_get arguments "filters" ;;
    get_ad_context api now context_id (Some filters)
  else if equals_str tool_name "get_available_inventory" then
    channel <~ method_get arguments "channel" ;;
    date <~ method_get arguments "date" ;;
    get_available_inventory api channel date
  else if equals_str tool_name "get_campaign_context" then
    campaign_id <~ method_get arguments "campaign_id" ;;
    get_campaign_context w api campaign_id
  else if equals_str tool_name "your_existing_tool" then
    Failed (AttributeError
              "'MCPServer' object has no attribute 'your_existing_handler'")
  else
    name_text <~ formatted w tool_name ;;
    Failed (Known (mk_exn ValueError ("Unknown tool: " ++ name_text))).

Definition register_tools : list pyval :=
  [PDict [("name", PStr "get_ad_context");
          ("description", PStr "Fetch advertising context data");
          ("input_schema",
           PDict [("type", PStr "object");
                  ("properties",
                   PDict [("context_id",
                           PDict [("type", PStr "string");
                                  ("description",
                                   PStr "Ad context identifier")]);
                          ("filters",
                           PDict [("type", PStr "object");
                                  ("description",
                                   PStr "Optional filters (channel, date, etc.)")])]);
                  ("required", PList [PStr "context_id"])])];
   PDict [("name", PStr "get_available_inventory");
          ("description",
           PStr "Get available ad inventory for a channel and date");
          ("input_schema",
           PDict [("type", PStr "object");
                  ("properties",
                   PDict [("channel", PDict [("type", PStr "string")]);
                          ("date", PDict [("type", PStr "string")])]);
                  ("required", PList [PStr "channel"; PStr "date"])])];
   PDict [("name", PStr "get_campaign_context");
          ("description",
           PStr "Get campaign-specific advertising context");
          ("input_schema",
           PDict [("type", PStr "object");
                  ("properties",
                   PDict [("campaign_id", PDict [("type", PStr "string")])]);
                  ("required", PList [PStr "campaign_id"])])]].

(** The names [handle_tool_call] has a branch for. *)
Definition dispatched_names : list string :=
  ["get_ad_context"; "get_available_inventory"; "get_campaign_context";
   "your_existing_tool"].

(** A value that [**(filters or {})] accepts: a dict, or anything falsy. *)
Definition mapping_or_falsy (v : pyval) : bool :=
  match v with
  | PDict _ => true
  | _ => negb (truthy v)
  end.

(** The value of [arguments.get(key)] for a dict [arguments]. *)
Definition argument (key : string) (arguments : pydict) : pyval :=
  match dict_get key arguments with
  | Some v => v
  | None => PNone
  end.

End Utils.

(** ** More sample data *)

(** A client whose every [get] returns [v]. *)
Definition answering (v : pyval) : Utils.api_client :=
  Utils.mk_api_client (fun _ _ => Return v).

(** A client whose every [get] raises [e]. *)
Definition failing (e : exn) : Utils.api_client :=
  Utils.mk_api_client (fun _ _ => Raise e).

Definition refused : exn := mk_exn ConnectionError "Connection refused".

(** A 200 reply whose JSON body is an error object of the backend. *)
Definition ok_with_error (message : string) : response :=
  mk_response 200 "OK" "http://localhost:8000/api/v1/channels" ""
    (inl (bare_error message)).

(** ** Equations of the computations *)

Lemma bind_ret_l {A B} (a : A) (k : A -> io B) : bind (ret a) k = k a.
Proof. unfold bind, ret. destruct (k a) as [log o]. reflexivity. Qed.

Lemma bind_throw {A B} (e : exn) (k : A -> io B) : bind (throw e) k = throw e.
Proof. reflexivity. Qed.

Lemma list_comp_items (f : pyval -> pyval) (v : pyval) (items : list pyval) :
  items_of v = Some items -> list_comp f v = ret (PList (map f items)).
Proof.
  intros Hitems. unfold list_comp, py_iter. rewrite Hitems.
  rewrite bind_ret_l. reflexivity.
Qed.

Lemma list_comp_raises (f : pyval -> pyval) (v : pyval) :
  items_of v = None ->
  list_comp f v =
    throw (mk_exn TypeError ("'" ++ type_name v ++ "' object is not iterable")).
Proof.
  intros Hitems. unfold list_comp, py_iter. rewrite Hitems. reflexivity.
Qed.

Lemma bind_lift_return {A B} (a : A) (k : A -> io B) :
  bind (lift (Return a)) k = k a.
Proof. unfold bind, lift. destruct (k a) as [log o]. reflexivity. Qed.

Lemma bind_lift_raise {A B} (e : exn) (k : A -> io B) :
  bind (lift (Raise e)) k = ([], Raise e).
Proof. reflexivity. Qed.

Section Forwarding.

Variable w : world.
Variables method url headers params json : pyval.
Variable timeout : Z.

(** The [try] block of every tool but the passthrough. *)
Lemma try_forward (handler : exn -> pyval) :
  try_except
    (response <- requests_request w method url headers params json timeout ;;
     raise_for_status response ;;;
     response_json response)
    Exception
    (fun e => ret (handler e))
  = ([mk_request method url headers params json timeout],
     Return (settle_with handler (fun _ e => handler e)
               (send w (mk_request method url headers params json timeout)))).
Proof.
  unfold requests_request, settle_with, raise_for_status, response_json.
  destruct (send w _) as [r | e]; cbn; [| reflexivity].
  destruct (String.eqb (http_error_msg r) ""); cbn; [| reflexivity].
  destruct (json_body r); reflexivity.
Qed.

(** The [try] block of the passthrough, with its inner [try]. *)
Lemma try_passthrough :
  try_except
    (response <- requests_request w method url headers params json timeout ;;
     raise_for_status response ;;;
     try_except
       (response_json response)
       ValueError
       (fun _ => ret (PDict [("text", PStr (text response))])))
    Exception
    (fun e => ret (PDict [("error", PStr (str_exn e))]))
  = ([mk_request method url headers params json timeout],
     Return (settle_with (fun e => bare_error (str_exn e))
               passthrough_invalid
               (send w (mk_request method url headers params json timeout)))).
Proof.
  unfold requests_request, settle_with, raise_for_status, response_json,
    passthrough_invalid.
  destruct (send w _) as [r | e]; cbn; [| reflexivity].
  destruct (String.eqb (http_error_msg r) ""); cbn; [| reflexivity].
  destruct (json_body r) as [v | [cls msg]]; [reflexivity |].
  destruct cls; reflexivity.
Qed.

End Forwarding.

Lemma append_nonempty (s t : string) : t <> "" -> s ++ t <> "".
Proof. destruct s; cbn; [trivial | discriminate]. Qed.

(** [raise_for_status] has a message to raise exactly on a 4xx or 5xx
    status. *)
Lemma http_error_msg_error (r : response) :
  error_status r -> String.eqb (http_error_msg r) "" = false.
Proof.
  unfold error_status, http_error_msg. intros [Hlo Hhi].
  apply String.eqb_neq.
  destruct (Z.ltb_spec (status_code r) 500) as [Hlt | Hge].
  - replace (Z.leb 400 (status_code r)) with true
      by (symmetry; apply Z.leb_le; exact Hlo).
    cbn. apply append_nonempty. discriminate.
  - rewrite andb_false_r.
    replace (Z.leb 500 (status_code r)) with true
      by (symmetry; apply Z.leb_le; exact Hge).
    replace (Z.ltb (status_code r) 600) with true
      by (symmetry; apply Z.ltb_lt; exact Hhi).
    cbn. apply append_nonempty. discriminate.
Qed.

Lemma http_error_msg_fine (r : response) :
  ~ error_status r -> http_error_msg r = "".
Proof.
  unfold error_status, http_error_msg. intros Hno.
  destruct (Z.leb_spec 400 (status_code r)) as [H4 | H4];
    destruct (Z.ltb_spec (status_code r) 500) as [H5 | H5]; cbn;
    try lia;
    destruct (Z.leb_spec 500 (status_code r)) as [H6 | H6];
    destruct (Z.ltb_spec (status_code r) 600) as [H7 | H7]; cbn;
    try lia; reflexivity.
Qed.

(** ** One request per call *)

Ltac unfold_tools :=
  unfold Server.get_products, Server.create_media_buy,
    Server.get_media_buy_delivery, Server.discover_signals,
    Server.activate_signal, Server.sync_creatives, Server.get_properties,
    Server.get_channels, Server.get_epg_shows, Server.get_adbreaks,
    Server.get_inventory, Server.book_ad, Server.get_api_data,
    Main.get_epg_shows, Main.get_solded_adbreaks, Main.get_channels,
    Main.get_api_data, requests_get, requests_post.

(** Replaces the [try] block of the goal by what it sends and returns. *)
Ltac forward_try :=
  unfold_tools; cbv zeta;
  first [ rewrite try_forward | rewrite try_passthrough ].

(** Runs the statements before the [try] block of the goal, by cases on
    what they iterate or format, and then the [try] block. *)
Ltac run_tool :=
  cbn [call]; unfold_tools; cbv zeta;
  try match goal with
    | |- context [list_comp _ ?v] =>
        let Hv := fresh "Hv" in
        destruct (items_of v) eqn:Hv;
        [ erewrite !list_comp_items by eassumption; rewrite !bind_ret_l
        | rewrite !list_comp_raises by assumption; rewrite ?bind_throw ]
    | |- context [lift (py_format ?w ?v)] =>
        let Hf := fresh "Hf" in
        destruct (py_format w v) eqn:Hf;
        [ rewrite !bind_lift_return | rewrite !bind_lift_raise ]
    end;
  try first [ rewrite !try_forward | rewrite !try_passthrough ].

(** A call sends one request and returns what [settle] says for the
    outcome of that request, or raises before it has sent anything. *)
Lemma call_cases (w : world) (c : tool_call) :
  (builds w c = true
   /\ exists req, call w c = ([req], Return (settle c (send w req))))
  \/ (builds w c = false /\ exists e, call w c = ([], Raise e)).
Proof.
  unfold builds, lists_iterable, iterable, formats.
  destruct c; cbn [list_args format_args forallb andb]; run_tool;
    try (left; split; [reflexivity | eexists; reflexivity]);
    right; split; try reflexivity; eexists; reflexivity.
Qed.

(** A call whose statements before the [try] block run through sends one
    request and returns what [settle] says for the outcome of that
    request. *)
Lemma call_sends_one (w : world) (c : tool_call) :
  builds w c = true ->
  exists req, call w c = ([req], Return (settle c (send w req))).
Proof.
  intros Hb. destruct (call_cases w c) as [[_ Hcall] | [Hno _]].
  - exact Hcall.
  - rewrite Hno in Hb. discriminate Hb.
Qed.

Lemma call_unbuilt (w : world) (c : tool_call) :
  builds w c = false -> exists e, call w c = ([], Raise e).
Proof.
  intros Hb. destruct (call_cases w c) as [[Hyes _] | [_ Hcall]].
  - rewrite Hyes in Hb. discriminate Hb.
  - exact Hcall.
Qed.

(** When a list argument cannot be iterated, the [TypeError] of the
    comprehension leaves the tool, before anything is sent and whatever
    the world is. *)
Lemma call_raises (c : tool_call) :
  lists_iterable c = false ->
  exists e, exn_cls e = TypeError /\ forall w, call w c = ([], Raise e).
Proof.
  intros Hit.
  destruct c; cbn in Hit; unfold iterable in Hit; try discriminate Hit;
    repeat match type of Hit with
      | context [items_of ?v] =>
          let Hv := fresh "Hv" in
          destruct (items_of v) eqn:Hv; [discriminate Hit |]
      end;
    eexists; (split; [| intros w; cbn [call]; unfold_tools; cbv zeta;
                        rewrite list_comp_raises by assumption;
                        reflexivity]);
    reflexivity.
Qed.

Lemma sent_one_settles (w : world) (c : tool_call) (req : request) :
  sent (call w c) = [req] ->
  call w c = ([req], Return (settle c (send w req))).
Proof.
  intros Hsent.
  destruct (call_cases w c) as [[_ [req' Hcall]] | [_ [e Hcall]]].
  - rewrite Hcall in Hsent. cbn in Hsent.
    injection Hsent as ->. exact Hcall.
  - rewrite Hcall in Hsent. discriminate Hsent.
Qed.

(** What [settle] gives is always one of the envelope shapes. *)
Lemma settle_envelope (c : tool_call) (o : outcome response) :
  envelope o (settle c o).
Proof.
  assert (Hfail : forall m, envelope o (failure_envelope c m)).
  { intros m. unfold failure_envelope.
    destruct (family_of c); constructor. }
  unfold settle, settle_with. destruct o as [r | e]; [| apply Hfail].
  destruct (negb (String.eqb (http_error_msg r) "")); [apply Hfail |].
  destruct (json_body r) as [v | e] eqn:Hbody.
  - eapply env_decoded; [reflexivity | exact Hbody].
  - destruct (is_passthrough c); [| apply Hfail].
    unfold passthrough_invalid.
    destruct (issubclass (exn_cls e) ValueError).
    + eapply env_text. reflexivity.
    + apply env_error.
Qed.

Lemma py_format_same (w1 w2 : world) :
  (forall v, format_other w1 v = format_other w2 v) ->
  forall v, py_format w1 v = py_format w2 v.
Proof. intros Hfmt v. destruct v; cbn; auto. Qed.

(** Arguments of the declared types let the statements before the [try]
    block run through. *)
Lemma declared_types_build (w : world) (c : tool_call) :
  typed_as_declared c = true -> builds w c = true.
Proof.
  unfold typed_as_declared, builds, lists_iterable, iterable, formats.
  destruct c; cbn [list_args format_args forallb andb]; try reflexivity;
    intros Htyped;
    match type of Htyped with
    | context [is_list ?v] => destruct v; try discriminate Htyped
    | context [is_str ?v] => destruct v; try discriminate Htyped
    end; reflexivity.
Qed.

(** ** Results and exceptions *)

(** C1, as stated, fails: [create_media_buy] builds its payload before the
    [try] block, so with [package_ids=None] the [TypeError] of the
    comprehension reaches the caller and no result value is returned. *)
Lemma payload_error_reaches_caller :
  call offline (spring_sale PNone)
    = ([], Raise (mk_exn TypeError "'NoneType' object is not iterable"))
  /\ ~ (exists v, result (call offline (spring_sale PNone)) = Return v).
Proof.
  split; [reflexivity |].
  intros [v Hv]. cbv in Hv. discriminate Hv.
Qed.

(** C1, amended: for every tool and every world, when the statements
    before the [try] block run through, which they do whenever the
    arguments they use have their declared types (a list for
    [package_ids], [platform_ids] and [creative_urls], a str for the
    [media_buy_id] of [get_media_buy_delivery]), the call sends one
    request and returns exactly one value, which has one of the envelope
    shapes for the outcome of that request; nothing is raised. They run
    through exactly when every list argument can be iterated and the
    [media_buy_id] can be formatted into the URL. *)
Theorem call_returns_one_envelope (w : world) (c : tool_call) :
  (typed_as_declared c = true -> builds w c = true)
  /\ (builds w c = true ->
      exists req v,
        call w c = ([req], Return v) /\ envelope (send w req) v)
  /\ (builds w c = false -> exists e, call w c = ([], Raise e)).
Proof.
  split; [apply declared_types_build |]. split.
  - intros Hb.
    destruct (call_sends_one w c Hb) as [req Hcall].
    exists req, (settle c (send w req)).
    split; [exact Hcall | apply settle_envelope].
  - apply call_unbuilt.
Qed.

Lemma call_returns_one_envelope_witness :
  typed_as_declared (spring_sale (PList [PStr "ab_001"; PStr "ab_002"]))
    = true
  /\ (exists req v,
        call offline (spring_sale (PList [PStr "ab_001"; PStr "ab_002"]))
          = ([req], Return v)
        /\ envelope (send offline req) v)
  /\ (exists req v,
        call (replying ok_nested) (GetMediaBuyDelivery (PStr "mb_20250306"))
          = ([req], Return v)
        /\ envelope (send (replying ok_nested) req) v)
  /\ builds offline (GetMediaBuyDelivery (PInt (10 ^ 4300))) = false
  /\ exists e,
       call offline (GetMediaBuyDelivery (PInt (10 ^ 4300))) = ([], Raise e).
Proof.
  split; [reflexivity |]. split; [| split; [| split]].
  - apply (proj1 (proj2 (call_returns_one_envelope offline
             (spring_sale (PList [PStr "ab_001"; PStr "ab_002"]))))).
    apply (proj1 (call_returns_one_envelope offline
             (spring_sale (PList [PStr "ab_001"; PStr "ab_002"])))).
    reflexivity.
  - apply (proj1 (proj2 (call_returns_one_envelope (replying ok_nested)
             (GetMediaBuyDelivery (PStr "mb_20250306"))))).
    reflexivity.
  - vm_compute. reflexivity.
  - apply (proj2 (proj2 (call_returns_one_envelope offline
             (GetMediaBuyDelivery (PInt (10 ^ 4300)))))).
    vm_compute. reflexivity.
Defined.

(** ** Error shape per family *)

(** C2, as stated, fails on a status that is neither 2xx nor 4xx/5xx:
    [raise_for_status] does not raise for 304, and the passthrough answers
    the empty body with the text fallback, not with an error object. *)
Lemma not_modified_is_no_error :
  ~ (200 <= status_code not_modified < 300)
  /\ result (call (replying not_modified) conditional_get)
       = Return (PDict [("text", PStr "")])
  /\ forall m,
       result (call (replying not_modified) conditional_get)
         <> Return (bare_error m).
Proof.
  split; [cbn; lia |].
  split; [reflexivity |].
  intros m Hm. cbv in Hm. discriminate Hm.
Qed.

(** C2, amended: for every call that sends its request and every failure
    of that request (the transport raises, a timeout included, or the
    status is 4xx or 5xx), an ADCP tool returns the protocol-tagged dict
    whose message is the tool's prefix followed by the exception message,
    and a legacy tool or the passthrough returns the bare [error] dict of
    the exception message. *)
Theorem failure_shape_by_family (w : world) (c : tool_call) (req : request) :
  sent (call w c) = [req] ->
  (forall e, send w req = Raise e ->
     result (call w c) = Return (failure_envelope c (str_exn e)))
  /\ (forall r, send w req = Return r -> error_status r ->
        result (call w c) = Return (failure_envelope c (http_error_msg r))).
Proof.
  intros Hsent. rewrite (sent_one_settles w c req Hsent). cbn [result snd].
  split.
  - intros e He. rewrite He. reflexivity.
  - intros r Hr Hstatus. rewrite Hr. unfold settle, settle_with.
    rewrite (http_error_msg_error r Hstatus). reflexivity.
Qed.

Lemma failure_shape_by_family_witness :
  result (call offline (GetProducts (PStr "prime time") None None None None))
    = Return (Server.adcp_failed "Product discovery error: Connection refused")
  /\ result (call (replying not_found) GetChannels)
       = Return (bare_error
           "404 Client Error: Not Found for url: http://localhost:8000/missing").
Proof.
  split.
  - exact (proj1 (failure_shape_by_family offline
                    (GetProducts (PStr "prime time") None None None None)
                    _ eq_refl)
             _ eq_refl).
  - refine (proj2 (failure_shape_by_family (replying not_found) GetChannels
                     _ eq_refl)
              not_found eq_refl _).
    unfold error_status. cbn. lia.
Defined.

(** ** Request construction *)

(** C3: for every list of package ids given to [create_media_buy], the
    [packages] field of the JSON body of the request is the list of the
    dicts [{"package_id": x}], one per id and in the same order; with
    ids [a], [b] it is [[{"package_id": "a"}, {"package_id": "b"}]]. *)
Theorem create_media_buy_packages (w : world)
    (name advertiser start_date end_date budget : pyval)
    (currency objectives : option pyval) :
  (forall ids : list pyval,
     exists req,
       sent (Server.create_media_buy w name advertiser (PList ids)
               start_date end_date budget currency objectives) = [req]
       /\ field "packages" (req_json req)
            = Some (PList (map (fun x => PDict [("package_id", x)]) ids)))
  /\ (exists req,
        sent (Server.create_media_buy w name advertiser
                (PList [PStr "a"; PStr "b"])
                start_date end_date budget currency objectives) = [req]
        /\ field "packages" (req_json req)
             = Some (PList [PDict [("package_id", PStr "a")];
                            PDict [("package_id", PStr "b")]])).
Proof.
  assert (Hall : forall ids : list pyval,
     exists req,
       sent (Server.create_media_buy w name advertiser (PList ids)
               start_date end_date budget currency objectives) = [req]
       /\ field "packages" (req_json req)
            = Some (PList (map (fun x => PDict [("package_id", x)]) ids))).
  { intros ids. unfold Server.create_media_buy, requests_post. cbv zeta.
    rewrite (list_comp_items _ (PList ids) ids eq_refl), bind_ret_l.
    rewrite try_forward.
    eexists. split; reflexivity. }
  split; [exact Hall |].
  exact (Hall [PStr "a"; PStr "b"]).
Qed.

(** C4, as stated, fails for the inventory lookup: [get_inventory] has no
    default for its date, and a call that gives no date ([None]) sends
    [None] as the [date] parameter, not the current date. *)
Lemma inventory_date_not_defaulted :
  exists req,
    sent (Server.get_inventory (replying ok_json) (PStr "al_aoula") PNone None)
      = [req]
    /\ field "date" (req_params req) = Some PNone
    /\ field "date" (req_params req)
         <> Some (PStr (today (replying ok_json))).
Proof.
  eexists. split; [reflexivity |].
  split; [reflexivity |].
  cbn. discriminate.
Qed.

(** C4, amended: [get_epg_shows], in server.py and in main.py, sends the
    current date as the [date] parameter whenever its date argument is
    left out, and more generally sends the given date when it is truthy
    and the current date otherwise; [get_inventory] takes a required date
    and sends it unchanged. *)
Theorem epg_date_defaults_to_today (w : world) (channel : pyval) :
  (exists req,
     sent (Server.get_epg_shows w channel None) = [req]
     /\ field "date" (req_params req) = Some (PStr (today w)))
  /\ (exists req,
        sent (Main.get_epg_shows w channel None) = [req]
        /\ field "date" (req_params req) = Some (PStr (today w)))
  /\ (forall query_date : option pyval,
        exists req req',
          sent (Server.get_epg_shows w channel query_date) = [req]
          /\ sent (Main.get_epg_shows w channel query_date) = [req']
          /\ field "date" (req_params req)
               = Some (py_or (arg query_date PNone) (PStr (today w)))
          /\ field "date" (req_params req')
               = Some (py_or (arg query_date PNone) (PStr (today w))))
  /\ (forall (query_date : pyval) (region : option pyval),
        exists req,
          sent (Server.get_inventory w channel query_date region) = [req]
          /\ field "date" (req_params req) = Some query_date).
Proof.
  repeat split.
  - forward_try. eexists. split; reflexivity.
  - forward_try. eexists. split; reflexivity.
  - intros query_date. forward_try. forward_try.
    do 2 eexists. split; [reflexivity |]. split; [reflexivity |].
    unfold py_or. cbn.
    destruct (truthy (arg query_date PNone)); split; reflexivity.
  - intros query_date region. forward_try.
    eexists. split; [reflexivity |].
    cbn. destruct (truthy (arg region PNone)); reflexivity.
Qed.

(** C5: called without [objectives], [create_media_buy] puts
    [["reach", "awareness"]] in the [objectives] field of the body; called
    without [signal_types], [discover_signals] puts
    [["audience", "contextual"]] in the [signal_types] field. For
    [create_media_buy] this is shown for a list of package ids, which
    sends the request, and for any [package_ids] on whatever is sent. *)
Theorem omitted_lists_take_defaults (w : world) :
  (forall (name advertiser start_date end_date budget : pyval)
          (ids : list pyval) (currency : option pyval),
     exists req,
       sent (Server.create_media_buy w name advertiser (PList ids)
               start_date end_date budget currency None) = [req]
       /\ field "objectives" (req_json req)
            = Some (PList [PStr "reach"; PStr "awareness"]))
  /\ (forall (name advertiser package_ids start_date end_date budget : pyval)
             (currency : option pyval),
        Forall
          (fun req =>
             field "objectives" (req_json req)
               = Some (PList [PStr "reach"; PStr "awareness"]))
          (sent (Server.create_media_buy w name advertiser package_ids
                   start_date end_date budget currency None)))
  /\ (forall (query : pyval) (min_scale : option pyval),
        exists req,
          sent (Server.discover_signals w query None min_scale) = [req]
          /\ field "signal_types" (req_json req)
               = Some (PList [PStr "audience"; PStr "contextual"])).
Proof.
  repeat split.
  - intros. unfold Server.create_media_buy, requests_post. cbv zeta.
    rewrite (list_comp_items _ (PList ids) ids eq_refl), bind_ret_l.
    rewrite try_forward.
    eexists. split; reflexivity.
  - intros. unfold Server.create_media_buy, requests_post. cbv zeta.
    destruct (items_of package_ids) as [items |] eqn:Hitems.
    + rewrite (list_comp_items _ package_ids items Hitems), bind_ret_l.
      rewrite try_forward.
      constructor; [reflexivity | constructor].
    + rewrite (list_comp_raises _ package_ids Hitems), bind_throw.
      constructor.
  - intros. forward_try. eexists. split; reflexivity.
Qed.

(** C6: a filter that is left out is not a key of the query parameters:
    [get_adbreaks] without [available] (or with [None]) has no
    [available], [get_inventory] without [region] has no [region], and
    [get_properties] has no [publisher_domain] and no [tags] when these are
    left out, each whatever the other one is. *)
Theorem omitted_filters_absent (w : world) :
  (exists req,
     sent (Server.get_adbreaks w None) = [req]
     /\ field "available" (req_params req) = None)
  /\ (exists req,
        sent (Server.get_adbreaks w (Some PNone)) = [req]
        /\ field "available" (req_params req) = None)
  /\ (forall channel query_date : pyval,
        exists req,
          sent (Server.get_inventory w channel query_date None) = [req]
          /\ field "region" (req_params req) = None)
  /\ (forall tags : option pyval,
        exists req,
          sent (Server.get_properties w None tags) = [req]
          /\ field "publisher_domain" (req_params req) = None)
  /\ (forall publisher_domain : option pyval,
        exists req,
          sent (Server.get_properties w publisher_domain None) = [req]
          /\ field "tags" (req_params req) = None)
  /\ (exists req,
        sent (Server.get_properties w None None) = [req]
        /\ req_params req = PDict []).
Proof.
  repeat split.
  - forward_try. eexists. split; reflexivity.
  - forward_try. eexists. split; reflexivity.
  - intros. forward_try. eexists. split; reflexivity.
  - intros. forward_try. eexists. split; [reflexivity |].
    cbn. destruct (truthy (arg tags PNone)); reflexivity.
  - intros. forward_try. eexists. split; [reflexivity |].
    cbn. destruct (truthy (arg publisher_domain PNone)); reflexivity.
  - forward_try. eexists. split; reflexivity.
Qed.

(** ** Bodies that do not decode, and status 404 *)

(** C7, as stated, fails: a body that is not valid JSON can make the
    decoder raise something else than a [ValueError]. For a 200 reply
    whose body is 200000 opening brackets [response.json()] raises
    [RecursionError], which the inner [except ValueError] of the
    passthrough lets through to the outer [except Exception]: the result is
    the error dict, not the text fallback. *)
Lemma nested_body_is_an_error :
  status_code ok_nested = 200
  /\ json_body ok_nested = inr too_deep
  /\ result (call (replying ok_nested) fetch_page)
     = Return (bare_error (str_exn too_deep))
  /\ result (call (replying ok_nested) fetch_page)
     <> Return (text_fallback ok_nested).
Proof.
  split; [reflexivity |]. split; [reflexivity |].
  assert (Hres : result (call (replying ok_nested) fetch_page)
            = Return (bare_error (str_exn too_deep))) by reflexivity.
  split; [exact Hres |].
  rewrite Hres. unfold bare_error, text_fallback. discriminate.
Qed.

(** C7, amended: when the reply to the passthrough, of server.py as of
    main.py, has a 2xx status and a body on which the decoder raises, the
    passthrough has sent the caller's request and returns
    [{"text": <raw body>}] if the exception is a [ValueError] (the
    [JSONDecodeError] of text that is not JSON) and [{"error": <message>}]
    otherwise; every other tool that sends its request answers such a
    reply with the error envelope of its family, never with the text
    fallback. *)
Theorem text_fallback_only_passthrough (w : world) :
  (forall (url : pyval) (method headers params body : option pyval)
          (r : response) (e : exn),
     let req :=
       mk_request (arg method (PStr "GET")) url (arg headers PNone)
         (arg params PNone) (arg body PNone) 10 in
     send w req = Return r ->
     200 <= status_code r < 300 ->
     json_body r = inr e ->
     Server.get_api_data w url method headers params body
       = ([req], Return (if issubclass (exn_cls e) ValueError
                         then PDict [("text", PStr (text r))]
                         else PDict [("error", PStr (str_exn e))]))
     /\ Main.get_api_data w url method headers params body
        = ([req], Return (if issubclass (exn_cls e) ValueError
                          then PDict [("text", PStr (text r))]
                          else PDict [("error", PStr (str_exn e))])))
  /\ (forall c : tool_call,
        is_passthrough c = false ->
        builds w c = true ->
        exists req,
          sent (call w c) = [req]
          /\ forall (r : response) (e : exn),
               send w req = Return r ->
               200 <= status_code r < 300 ->
               json_body r = inr e ->
               result (call w c) = Return (failure_envelope c (str_exn e))
               /\ result (call w c) <> Return (text_fallback r)).
Proof.
  split.
  - intros url method headers params body r e req Hsend Hstatus Hbody.
    assert (Hfine : http_error_msg r = "")
      by (apply http_error_msg_fine; unfold error_status; lia).
    split; forward_try; fold req; rewrite Hsend;
      unfold settle_with, passthrough_invalid;
      rewrite Hfine, Hbody; reflexivity.
  - intros c Hpass Hb.
    destruct (call_sends_one w c Hb) as [req Hcall].
    exists req. rewrite Hcall. split; [reflexivity |].
    intros r e Hsend Hstatus Hbody. cbn [result snd].
    assert (Hres : settle c (send w req) = failure_envelope c (str_exn e)).
    { rewrite Hsend. unfold settle, settle_with.
      rewrite http_error_msg_fine by (unfold error_status; lia).
      cbn. rewrite Hbody, Hpass. reflexivity. }
    rewrite Hres. split; [reflexivity |].
    unfold failure_envelope, text_fallback, bare_error, Server.adcp_failed.
    destruct (family_of c); discriminate.
Qed.

Lemma text_fallback_only_passthrough_witness :
  Server.get_api_data (replying ok_html) (PStr "http://example.org/")
    None None None None
  = ([mk_request (PStr "GET") (PStr "http://example.org/")
        PNone PNone PNone 10],
     Return (PDict [("text", PStr "<html></html>")]))
  /\ Main.get_api_data (replying ok_html) (PStr "http://example.org/")
       None None None None
     = ([mk_request (PStr "GET") (PStr "http://example.org/")
           PNone PNone PNone 10],
        Return (PDict [("text", PStr "<html></html>")]))
  /\ Main.get_api_data (replying ok_nested) (PStr "http://example.org/")
       None None None None
     = ([mk_request (PStr "GET") (PStr "http://example.org/")
           PNone PNone PNone 10],
        Return (PDict [("error", PStr (str_exn too_deep))]))
  /\ exists req,
       sent (call (replying ok_html) GetChannels) = [req]
       /\ forall (r : response) (e : exn),
            send (replying ok_html) req = Return r ->
            200 <= status_code r < 300 ->
            json_body r = inr e ->
            result (call (replying ok_html) GetChannels)
              = Return (failure_envelope GetChannels (str_exn e))
            /\ result (call (replying ok_html) GetChannels)
               <> Return (text_fallback r).
Proof.
  split; [| split; [| split]].
  - refine (proj1 (proj1 (text_fallback_only_passthrough (replying ok_html))
                     (PStr "http://example.org/") None None None None
                     ok_html not_json eq_refl _ eq_refl)).
    cbn. lia.
  - refine (proj2 (proj1 (text_fallback_only_passthrough (replying ok_html))
                     (PStr "http://example.org/") None None None None
                     ok_html not_json eq_refl _ eq_refl)).
    cbn. lia.
  - refine (proj2 (proj1 (text_fallback_only_passthrough (replying ok_nested))
                     (PStr "http://example.org/") None None None None
                     ok_nested too_deep eq_refl _ eq_refl)).
    cbn. lia.
  - apply (proj2 (text_fallback_only_passthrough (replying ok_html))
             GetChannels); reflexivity.
Defined.

(** C8: when the reply to the passthrough has status 404, the result is
    [{"error": <message>}] and the message contains [404]; it is the
    message of [raise_for_status],
    [404 Client Error: <reason> for url: <url>]. *)
Theorem passthrough_404_error (w : world) (url : pyval)
    (method headers params body : option pyval) (r : response) :
  send w (mk_request (arg method (PStr "GET")) url (arg headers PNone)
            (arg params PNone) (arg body PNone) 10) = Return r ->
  status_code r = 404 ->
  let message :=
    "404 Client Error: " ++ reason r ++ " for url: " ++ resp_url r in
  result (Server.get_api_data w url method headers params body)
    = Return (PDict [("error", PStr message)])
  /\ result (Main.get_api_data w url method headers params body)
       = Return (PDict [("error", PStr message)])
  /\ contains "404" message.
Proof.
  intros Hsend Hstatus message.
  assert (Hmsg : http_error_msg r = message).
  { unfold http_error_msg. rewrite Hstatus. reflexivity. }
  repeat split.
  - forward_try. rewrite Hsend. unfold settle_with.
    rewrite Hmsg. reflexivity.
  - forward_try. rewrite Hsend. unfold settle_with.
    rewrite Hmsg. reflexivity.
  - exists "", (" Client Error: " ++ reason r ++ " for url: " ++ resp_url r).
    reflexivity.
Qed.

Lemma passthrough_404_error_witness :
  result (Server.get_api_data (replying not_found)
            (PStr "http://localhost:8000/missing") None None None None)
    = Return (PDict [("error", PStr
        "404 Client Error: Not Found for url: http://localhost:8000/missing")]).
Proof.
  exact (proj1 (passthrough_404_error (replying not_found)
                  (PStr "http://localhost:8000/missing") None None None None
                  not_found eq_refl eq_refl)).
Defined.

(** ** Determinism *)

(** C9: the outcome of a call is a function of the arguments, the current
    date and the backend's reply: two runs with the same arguments, the
    same date (and formatting) and the same reply to the request that is
    sent have equal outcomes, for the lookups as for every other tool. *)
Theorem call_deterministic (w1 w2 : world) (c : tool_call) :
  today w1 = today w2 ->
  (forall v, format_other w1 v = format_other w2 v) ->
  (forall req, In req (sent (call w1 c)) -> send w1 req = send w2 req) ->
  call w1 c = call w2 c.
Proof.
  intros Hday Hfmt.
  pose proof (py_format_same w1 w2 Hfmt) as Hpf.
  destruct c; cbn [call]; unfold_tools; cbv zeta;
    rewrite <- ?Hday, <- ?Hpf;
    try match goal with
      | |- context [list_comp _ ?v] =>
          let Hv := fresh "Hv" in
          destruct (items_of v) eqn:Hv;
          [ erewrite !list_comp_items by eassumption; rewrite !bind_ret_l
          | rewrite !list_comp_raises by assumption; reflexivity ]
      | |- context [lift (py_format ?w ?v)] =>
          let Hf := fresh "Hf" in
          destruct (py_format w v) eqn:Hf;
          [ rewrite !bind_lift_return | reflexivity ]
      end;
    first [ rewrite !try_forward | rewrite !try_passthrough ];
    cbn [sent fst]; intros Hreply;
    rewrite (Hreply _ (or_introl eq_refl)); reflexivity.
Qed.

Lemma call_deterministic_witness :
  call (replying ok_json) (GetProperties (Some (PStr "snrt.ma")) None)
    = call (replying_to_lookups ok_json)
        (GetProperties (Some (PStr "snrt.ma")) None).
Proof.
  apply (call_deterministic (replying ok_json) (replying_to_lookups ok_json)
           (GetProperties (Some (PStr "snrt.ma")) None)).
  - reflexivity.
  - intros v. reflexivity.
  - intros req [<- | []]. reflexivity.
Defined.

(** ** Empty lists *)

(** C10: an empty list is treated as a missing one: with [objectives=[]]
    the body of [create_media_buy] has [["reach", "awareness"]], with
    [signal_types=[]] the body of [discover_signals] has
    [["audience", "contextual"]], and whatever is passed for them the body
    never carries an empty list in these fields. For [create_media_buy]
    this is shown for a list of package ids, which sends the request, and
    for any [package_ids] on whatever is sent. *)
Theorem empty_list_takes_default (w : world) :
  (forall (name advertiser start_date end_date budget : pyval)
          (ids : list pyval) (currency : option pyval),
     exists req,
       sent (Server.create_media_buy w name advertiser (PList ids)
               start_date end_date budget currency (Some (PList []))) = [req]
       /\ field "objectives" (req_json req)
            = Some (PList [PStr "reach"; PStr "awareness"]))
  /\ (forall (query : pyval) (min_scale : option pyval),
        exists req,
          sent (Server.discover_signals w query (Some (PList [])) min_scale)
            = [req]
          /\ field "signal_types" (req_json req)
               = Some (PList [PStr "audience"; PStr "contextual"]))
  /\ (forall (name advertiser start_date end_date budget : pyval)
             (ids : list pyval) (currency objectives : option pyval),
        exists req,
          sent (Server.create_media_buy w name advertiser (PList ids)
                  start_date end_date budget currency objectives) = [req]
          /\ field "objectives" (req_json req) <> Some (PList []))
  /\ (forall (name advertiser package_ids start_date end_date budget : pyval)
             (currency objectives : option pyval),
        Forall
          (fun req =>
             field "objectives" (req_json req) <> Some (PList [])
             /\ (objectives = Some (PList []) ->
                   field "objectives" (req_json req)
                     = Some (PList [PStr "reach"; PStr "awareness"])))
          (sent (Server.create_media_buy w name advertiser package_ids
                   start_date end_date budget currency objectives)))
  /\ (forall (query : pyval) (signal_types min_scale : option pyval),
        exists req,
          sent (Server.discover_signals w query signal_types min_scale)
            = [req]
          /\ field "signal_types" (req_json req) <> Some (PList [])).
Proof.
  assert (Hor : forall a b : pyval,
            b <> PList [] -> Some (py_or a b) <> Some (PList [])).
  { intros a b Hb Heq. injection Heq as Heq. unfold py_or in Heq.
    destruct (truthy a) eqn:Ha; [| contradiction].
    rewrite Heq in Ha. discriminate Ha. }
  repeat split.
  - intros. unfold Server.create_media_buy, requests_post. cbv zeta.
    rewrite (list_comp_items _ (PList ids) ids eq_refl), bind_ret_l.
    rewrite try_forward.
    eexists. split; reflexivity.
  - intros. forward_try. eexists. split; reflexivity.
  - intros. unfold Server.create_media_buy, requests_post. cbv zeta.
    rewrite (list_comp_items _ (PList ids) ids eq_refl), bind_ret_l.
    rewrite try_forward.
    eexists. split; [reflexivity |].
    cbn. apply Hor. discriminate.
  - intros. unfold Server.create_media_buy, requests_post. cbv zeta.
    destruct (items_of package_ids) as [items |] eqn:Hitems.
    + rewrite (list_comp_items _ package_ids items Hitems), bind_ret_l.
      rewrite try_forward.
      constructor; [| constructor].
      split; [cbn; apply Hor; discriminate |].
      intros ->. reflexivity.
    + rewrite (list_comp_raises _ package_ids Hitems), bind_throw.
      constructor.
  - intros. forward_try. eexists. split; [reflexivity |].
    cbn. apply Hor. discriminate.
Qed.

(** ** What every call sends *)

(** X1: a tool calls [requests] at most once, whatever the outcome of
    that call is, and never a second time after a failure: exactly once
    when its statements before the [try] block run through (the list
    arguments can be iterated, the id put in the URL can be formatted),
    not at all otherwise. What [requests] itself puts on the wire for
    that one call, a redirect followed for instance, is not counted. *)
Theorem one_request_per_call (w : world) (c : tool_call) :
  List.length (sent (call w c)) = if builds w c then 1%nat else 0%nat.
Proof.
  destruct (call_cases w c) as [[Hb [req Hcall]] | [Hb [e Hcall]]];
    rewrite Hb, Hcall; reflexivity.
Qed.

(** X2: when a list argument cannot be iterated the tool raises the
    comprehension's [TypeError], which names the type of that argument,
    and it has sent nothing to the backend. *)
Theorem uniterable_list_raises_unsent (w : world) (c : tool_call) :
  lists_iterable c = false ->
  exists v,
    In v (list_args c)
    /\ call w c
       = ([], Raise (mk_exn TypeError
                       ("'" ++ type_name v ++ "' object is not iterable"))).
Proof.
  intros Hit.
  destruct c; cbn in Hit; unfold iterable in Hit; try discriminate Hit;
    match type of Hit with
    | context [items_of ?v] =>
        exists v; split; [left; reflexivity |];
        destruct (items_of v) eqn:Hv; [discriminate Hit |]
    end;
    cbn [call]; unfold_tools; cbv zeta;
    rewrite list_comp_raises by assumption; reflexivity.
Qed.

Lemma uniterable_list_raises_unsent_witness :
  exists v,
    In v [PInt 7]
    /\ call (replying ok_json)
         (ActivateSignal (PStr "sig_1") (PInt 7) None)
       = ([], Raise (mk_exn TypeError
                       ("'" ++ type_name v ++ "' object is not iterable"))).
Proof.
  apply (uniterable_list_raises_unsent (replying ok_json)
           (ActivateSignal (PStr "sig_1") (PInt 7) None)).
  reflexivity.
Defined.

(** X3: when the reply has a status that is not 4xx or 5xx and a body that
    decodes, every tool returns the decoded body unchanged, whatever its
    type. *)
Theorem decoded_body_is_returned (w : world) (c : tool_call) (req : request)
    (r : response) (v : pyval) :
  sent (call w c) = [req] ->
  send w req = Return r ->
  ~ error_status r ->
  json_body r = inl v ->
  result (call w c) = Return v.
Proof.
  intros Hsent Hsend Hstatus Hbody.
  rewrite (sent_one_settles w c req Hsent). cbn [result snd].
  rewrite Hsend. unfold settle, settle_with.
  rewrite (http_error_msg_fine r Hstatus). cbn.
  rewrite Hbody. reflexivity.
Qed.

Lemma decoded_body_is_returned_witness :
  result (call (replying ok_json) (BookAd (PStr "ab_001")))
    = Return (PDict []).
Proof.
  refine (decoded_body_is_returned (replying ok_json)
            (BookAd (PStr "ab_001")) _ ok_json (PDict [])
            eq_refl eq_refl _ eq_refl).
  unfold error_status. cbn. lia.
Defined.

(** X4: a tool that changes something on the backend (booking, media buy
    creation, signal activation, creative sync) sends a POST whose JSON
    body is a dict, with no query parameters and no headers of its own. *)
Theorem mutating_tools_post (w : world) (c : tool_call) :
  mutating c = true ->
  Forall
    (fun req =>
       req_method req = PStr "post"
       /\ req_params req = PNone
       /\ req_headers req = PNone
       /\ exists d, req_json req = PDict d)
    (sent (call w c)).
Proof.
  intros Hmut.
  destruct c; try discriminate Hmut; run_tool;
    try apply Forall_nil;
    (apply Forall_cons; [| apply Forall_nil]);
    cbn; repeat split; eexists; reflexivity.
Qed.

Lemma mutating_tools_post_witness :
  Forall
    (fun req =>
       req_method req = PStr "post"
       /\ req_params req = PNone
       /\ req_headers req = PNone
       /\ exists d, req_json req = PDict d)
    (sent (call offline (spring_sale (PList [PStr "ab_001"])))).
Proof.
  apply (mutating_tools_post offline (spring_sale (PList [PStr "ab_001"]))).
  reflexivity.
Defined.

(** X5: a tool that neither posts a payload nor is the passthrough sends a
    GET without a JSON body and without headers. *)
Theorem lookup_tools_get (w : world) (c : tool_call) :
  posts_payload c = false ->
  mutating c = false ->
  is_passthrough c = false ->
  Forall
    (fun req =>
       req_method req = PStr "get"
       /\ req_json req = PNone
       /\ req_headers req = PNone)
    (sent (call w c)).
Proof.
  intros Hpost Hmut Hpass.
  destruct c; try discriminate Hpost; try discriminate Hmut;
    try discriminate Hpass; run_tool;
    try apply Forall_nil;
    (apply Forall_cons; [| apply Forall_nil]);
    cbn; repeat split.
Qed.

Lemma lookup_tools_get_witness :
  Forall
    (fun req =>
       req_method req = PStr "get"
       /\ req_json req = PNone
       /\ req_headers req = PNone)
    (sent (call offline (GetInventory (PStr "al_aoula") (PStr "2025-03-06")
                           (Some (PStr "casablanca"))))).
Proof.
  apply (lookup_tools_get offline
           (GetInventory (PStr "al_aoula") (PStr "2025-03-06")
              (Some (PStr "casablanca"))));
    reflexivity.
Defined.

(** X6: every request carries a timeout: fifteen seconds from the ADCP
    tools that post a payload, ten seconds from every other tool, the
    passthrough included. *)
Theorem every_request_has_timeout (w : world) (c : tool_call) :
  Forall
    (fun req => req_timeout req = if posts_payload c then 15 else 10)
    (sent (call w c)).
Proof.
  destruct c; run_tool;
    try apply Forall_nil;
    (apply Forall_cons; [| apply Forall_nil]);
    reflexivity.
Qed.

(** X7: where a tool sends its request does not depend on its arguments
    nor on the world: every tool other than the passthrough and
    [get_media_buy_delivery] has one URL, a str, to which every call of
    it that sends a request sends it; the creative URLs given to
    [sync_creatives] do not change where it posts.
    [get_media_buy_delivery] is the exception: it puts the text of its id
    between [.../adcp/media-buy/] and [/delivery] as it is, without
    quoting it. *)
Theorem url_independent_of_arguments (c : tool_call) :
  (is_passthrough c = false ->
   format_args c = [] ->
   exists url,
     forall (w : world) (c' : tool_call),
       same_tool c c' = true ->
       Forall (fun req => req_url req = PStr url) (sent (call w c'))
       /\ (builds w c' = true ->
           exists req, sent (call w c') = [req] /\ req_url req = PStr url))
  /\ (forall (w : world) (media_buy_id : pyval) (id_text : string),
        py_format w media_buy_id = Return id_text ->
        exists req,
          sent (Server.get_media_buy_delivery w media_buy_id) = [req]
          /\ req_url req
             = PStr ("http://localhost:8000/api/v1/adcp/media-buy/"
                       ++ id_text ++ "/delivery")).
Proof.
  split.
  - intros Hpass Hfmt.
    destruct c; try discriminate Hpass; try discriminate Hfmt;
      eexists; intros w c' Hsame;
      destruct c'; try discriminate Hsame;
      unfold builds, lists_iterable, iterable;
      cbn [list_args format_args forallb andb];
      run_tool; cbn [sent fst];
      (split;
       [ first [ apply Forall_nil
               | apply Forall_cons; [cbn [req_url]; reflexivity
                                    | apply Forall_nil] ]
       | intros Hb; first [ discriminate Hb
                          | eexists; split; reflexivity ] ]).
  - intros w media_buy_id id_text Hformat.
    unfold Server.get_media_buy_delivery, requests_get. cbv zeta.
    rewrite Hformat, bind_lift_return, try_forward.
    eexists. split; reflexivity.
Qed.

Lemma url_independent_of_arguments_witness :
  (exists url,
     forall (w : world) (c' : tool_call),
       same_tool (SyncCreatives (PStr "mb_20250306")
                    (PList [PStr "https://cdn.example.com/ad1.mp4"]) None)
         c' = true ->
       Forall (fun req => req_url req = PStr url) (sent (call w c'))
       /\ (builds w c' = true ->
           exists req, sent (call w c') = [req] /\ req_url req = PStr url))
  /\ exists req,
       sent (Server.get_media_buy_delivery offline (PStr "../../../../admin"))
         = [req]
       /\ req_url req
          = PStr ("http://localhost:8000/api/v1/adcp/media-buy/"
                    ++ "../../../../admin" ++ "/delivery").
Proof.
  split.
  - apply (proj1 (url_independent_of_arguments
             (SyncCreatives (PStr "mb_20250306")
                (PList [PStr "https://cdn.example.com/ad1.mp4"]) None)));
      reflexivity.
  - apply (proj2 (url_independent_of_arguments GetChannels) offline
             (PStr "../../../../admin")).
    reflexivity.
Defined.

(** ** The two files side by side *)

(** X8: the tools that main.py shares with server.py behave the same:
    [get_epg_shows], [get_channels] and [get_api_data] of main.py send the
    same request and return the same result as those of server.py, for
    all arguments and every backend. *)
Theorem main_tools_agree_with_server (w : world) :
  (forall (channel : pyval) (query_date : option pyval),
     Main.get_epg_shows w channel query_date
       = Server.get_epg_shows w channel query_date)
  /\ Main.get_channels w = Server.get_channels w
  /\ (forall (url : pyval) (method headers params body : option pyval),
        Main.get_api_data w url method headers params body
          = Server.get_api_data w url method headers params body).
Proof.
  repeat split; intros; reflexivity.
Qed.

(** X9: [get_solded_adbreaks] of main.py and [get_adbreaks] of server.py
    are the same call as long as the filter is not [None]. *)
Theorem adbreaks_tools_agree (w : world) (available : pyval) :
  available <> PNone ->
  Main.get_solded_adbreaks w available
    = Server.get_adbreaks w (Some available).
Proof.
  intros Hsome. unfold Main.get_solded_adbreaks, Server.get_adbreaks.
  destruct available; try contradiction; reflexivity.
Qed.

Lemma adbreaks_tools_agree_witness :
  Main.get_solded_adbreaks (replying ok_json) (PBool false)
    = Server.get_adbreaks (replying ok_json) (Some (PBool false)).
Proof.
  apply (adbreaks_tools_agree (replying ok_json) (PBool false)).
  discriminate.
Defined.

(** ** Filters and bodies *)

(** X10: [get_adbreaks] tests its filter against [None], not for truth:
    [False], [0] or an empty string is sent as the value of [available],
    and only [None] leaves the parameters empty. *)
Theorem adbreaks_keeps_falsy_filter (w : world) (available : option pyval) :
  exists req,
    sent (Server.get_adbreaks w available) = [req]
    /\ req_params req
       = PDict (if is_none (arg available PNone) then []
                else [("available", arg available PNone)]).
Proof.
  forward_try. eexists. split; [reflexivity |].
  cbn. destruct (is_none (arg available PNone)); reflexivity.
Qed.

(** X11: [get_inventory] and [get_properties] test their optional filters
    for truth: [channel] and [date] are always sent as given, and a
    [region], [publisher_domain] or [tags] that is given but empty is
    dropped like a missing one. *)
Theorem falsy_filters_dropped (w : world) :
  (forall (channel query_date : pyval) (region : option pyval),
     exists req,
       sent (Server.get_inventory w channel query_date region) = [req]
       /\ req_params req
          = PDict (("channel", channel) :: ("date", query_date)
                   :: if truthy (arg region PNone)
                      then [("region", arg region PNone)] else []))
  /\ (forall publisher_domain tags : option pyval,
        exists req,
          sent (Server.get_properties w publisher_domain tags) = [req]
          /\ req_params req
             = PDict ((if truthy (arg publisher_domain PNone)
                       then [("publisher_domain", arg publisher_domain PNone)]
                       else [])
                      ++ (if truthy (arg tags PNone)
                          then [("tags", arg tags PNone)] else []))%list).
Proof.
  split; intros; forward_try; eexists; (split; [reflexivity |]); cbn.
  - destruct (truthy (arg region PNone)); reflexivity.
  - destruct (truthy (arg publisher_domain PNone));
      destruct (truthy (arg tags PNone)); reflexivity.
Qed.

(** X12: in the body of [get_products] only [date_from] has a default,
    the current date: [date_to], [channel] and [max_budget] are sent as
    given, as null when left out; no end date is computed from the start
    date. *)
Theorem get_products_body_fields (w : world) (query : pyval)
    (channel date_from date_to max_budget : option pyval) :
  exists req,
    sent (Server.get_products w query channel date_from date_to max_budget)
      = [req]
    /\ field "query" (req_json req) = Some query
    /\ field "date_from" (req_json req)
       = Some (py_or (arg date_from PNone) (PStr (today w)))
    /\ field "date_to" (req_json req) = Some (arg date_to PNone)
    /\ field "channel" (req_json req) = Some (arg channel PNone)
    /\ field "filters" (req_json req)
       = Some (PDict [("max_budget", arg max_budget PNone)]).
Proof.
  forward_try. eexists. repeat split.
Qed.

(** X13: [activate_signal] turns each platform id [x] into
    [{"platform_id": x}] and [sync_creatives] each creative URL [x] into
    [{"url": x}], in order, an empty list giving an empty list; a missing
    or empty [config] or [assignments] is sent as an empty dict. *)
Theorem id_lists_become_objects (w : world) :
  (forall (signal_id : pyval) (ids : list pyval) (config : option pyval),
     exists req,
       sent (Server.activate_signal w signal_id (PList ids) config) = [req]
       /\ field "platforms" (req_json req)
          = Some (PList (map (fun x => PDict [("platform_id", x)]) ids))
       /\ field "config" (req_json req)
          = Some (py_or (arg config PNone) (PDict [])))
  /\ (forall (media_buy_id : pyval) (urls : list pyval)
             (assignments : option pyval),
        exists req,
          sent (Server.sync_creatives w media_buy_id (PList urls) assignments)
            = [req]
          /\ field "creatives" (req_json req)
             = Some (PList (map (fun x => PDict [("url", x)]) urls))
          /\ field "assignments" (req_json req)
             = Some (py_or (arg assignments PNone) (PDict []))).
Proof.
  split; intros.
  - unfold Server.activate_signal, requests_post. cbv zeta.
    rewrite (list_comp_items _ (PList ids) ids eq_refl), bind_ret_l.
    rewrite try_forward. eexists. repeat split.
  - unfold Server.sync_creatives, requests_post. cbv zeta.
    rewrite (list_comp_items _ (PList urls) urls eq_refl), bind_ret_l.
    rewrite try_forward. eexists. repeat split.
Qed.

(** Cutting a str into its characters loses nothing. *)
Lemma str_chars_join (s : string) :
  fold_right String.append EmptyString (str_chars s) = s.
Proof.
  induction s as [| c rest IH]; [reflexivity |].
  cbn [str_chars].
  destruct (starts_with_continuation rest).
  - destruct (str_chars rest) as [| first others].
    + cbn in IH |- *. rewrite <- IH. reflexivity.
    + cbn in IH |- *. rewrite IH. reflexivity.
  - cbn. rewrite IH. reflexivity.
Qed.

(** A character has one leading byte: a str of bytes that all begin a
    character has as many characters as bytes. *)
Lemma str_chars_ascii (s : string) :
  forallb (fun c => negb (continuation c)) (list_ascii_of_string s) = true ->
  str_chars s
    = map (fun c => String c EmptyString) (list_ascii_of_string s).
Proof.
  induction s as [| c rest IH]; [reflexivity |].
  cbn [list_ascii_of_string forallb map str_chars].
  intros Hlead. apply andb_true_iff in Hlead as [_ Hrest].
  assert (Hstart : starts_with_continuation rest = false).
  { destruct rest as [| c' rest']; [reflexivity |].
    cbn in Hrest |- *. apply andb_true_iff in Hrest as [Hc' _].
    apply negb_true_iff. exact Hc'. }
  rewrite Hstart, (IH Hrest). reflexivity.
Qed.

(** X14: a single str given as [package_ids] is iterated character by
    character (code point by code point): the body of [create_media_buy]
    then holds one [{"package_id": <character>}] per character of the
    str, in order, the characters together making up the str, and not one
    package with that id. *)
Theorem str_package_ids_split (w : world)
    (name advertiser start_date end_date budget : pyval)
    (currency objectives : option pyval) (s : string) :
  exists req,
    sent (Server.create_media_buy w name advertiser (PStr s)
            start_date end_date budget currency objectives) = [req]
    /\ field "packages" (req_json req)
       = Some (PList (map (fun ch => PDict [("package_id", PStr ch)])
                        (str_chars s)))
    /\ fold_right String.append EmptyString (str_chars s) = s
    /\ (forallb (fun c => negb (continuation c)) (list_ascii_of_string s)
          = true ->
        List.length (str_chars s) = String.length s).
Proof.
  unfold Server.create_media_buy, requests_post. cbv zeta.
  erewrite list_comp_items by reflexivity. rewrite bind_ret_l.
  rewrite try_forward.
  eexists. split; [reflexivity |]. split.
  - cbn. rewrite map_map. reflexivity.
  - split; [apply str_chars_join |].
    intros Hlead. rewrite (str_chars_ascii s Hlead), length_map.
    clear Hlead. induction s as [| c rest IH]; [reflexivity |].
    cbn. rewrite IH. reflexivity.
Qed.

(** The euro sign is one character of three bytes. *)
Example str_chars_euro :
  str_chars "€" = ["€"] /\ String.length "€" = 3%nat
  /\ str_chars "a€b" = ["a"; "€"; "b"].
Proof. repeat split. Qed.

(** ** Reading a result *)

(** X15: the result of a legacy tool or of the passthrough does not tell
    a failed request from a backend that answers 200 with the JSON object
    [{"error": <the same message>}]: both give the same value. *)
Theorem failure_looks_like_error_body (w1 w2 : world) (c : tool_call)
    (req1 req2 : request) (e : exn) (r : response) :
  family_of c <> Adcp ->
  sent (call w1 c) = [req1] ->
  send w1 req1 = Raise e ->
  sent (call w2 c) = [req2] ->
  send w2 req2 = Return r ->
  ~ error_status r ->
  json_body r = inl (bare_error (str_exn e)) ->
  result (call w1 c) = result (call w2 c).
Proof.
  intros Hfam Hsent1 Hsend1 Hsent2 Hsend2 Hstatus Hbody.
  rewrite (sent_one_settles w1 c req1 Hsent1).
  rewrite (sent_one_settles w2 c req2 Hsent2).
  cbn [result snd]. rewrite Hsend1, Hsend2.
  unfold settle, settle_with.
  rewrite (http_error_msg_fine r Hstatus). cbn. rewrite Hbody.
  unfold failure_envelope.
  destruct (family_of c); [contradiction | reflexivity | reflexivity].
Qed.

Lemma failure_looks_like_error_body_witness :
  result (call offline GetChannels)
    = result (call (replying (ok_with_error "Connection refused"))
                GetChannels).
Proof.
  refine (failure_looks_like_error_body offline
            (replying (ok_with_error "Connection refused")) GetChannels
            _ _ refused (ok_with_error "Connection refused")
            _ eq_refl eq_refl eq_refl eq_refl _ eq_refl).
  - discriminate.
  - unfold error_status. cbn. lia.
Defined.

(** X16: a call that is given its date does not depend on the clock: for
    every tool without a date default, and for [get_products] and
    [get_epg_shows] with a truthy date, the requests and the result are
    the same on any day. *)
Theorem given_date_ignores_clock (w : world) (c : tool_call) (day : string) :
  reads_clock c = false ->
  call (on_day w day) c = call w c.
Proof.
  intros Hclock.
  destruct c; cbn in Hclock; cbn [call]; unfold_tools; cbv zeta;
    try reflexivity;
    unfold py_or;
    match type of Hclock with
    | negb (truthy ?v) = false =>
        destruct (truthy v); [reflexivity | discriminate Hclock]
    end.
Qed.

Lemma given_date_ignores_clock_witness :
  call (on_day (replying ok_json) "1999-12-31")
    (GetEpgShows (PStr "al_aoula") (Some (PStr "2025-03-06")))
  = call (replying ok_json)
      (GetEpgShows (PStr "al_aoula") (Some (PStr "2025-03-06"))).
Proof.
  apply (given_date_ignores_clock (replying ok_json)
           (GetEpgShows (PStr "al_aoula") (Some (PStr "2025-03-06")))
           "1999-12-31").
  reflexivity.
Defined.

(** ** The greeting prompt of main.py *)

(** X17: [greet_user] never rejects a style it does not know: any
    hashable style other than [formal] and [casual], a misspelt one or
    [None] included, behaves as if the style were left out. It gives the
    friendly prompt when the name can be formatted, and the exception of
    the formatting when it cannot. *)
Theorem unknown_style_is_friendly (w : world) (name style : pyval) :
  MainText.hashable style = true ->
  style <> PStr "formal" ->
  style <> PStr "casual" ->
  MainText.greet_user w name (Some style) = MainText.greet_user w name None
  /\ (forall name_text,
        py_format w name = Return name_text ->
        MainText.greet_user w name (Some style)
          = ret ("Please write a warm, friendly greeting for someone named "
                   ++ name_text ++ "."))
  /\ (forall e,
        py_format w name = Raise e ->
        MainText.greet_user w name (Some style) = throw e).
Proof.
  intros Hhash Hformal Hcasual.
  assert (Hchosen :
            MainText.dict_get_default MainText.styles style
              MainText.styles_friendly
            = ret (PStr "Please write a warm, friendly greeting")).
  { destruct style as [| b | z | f | s | l | d];
      try discriminate Hhash; try reflexivity.
    unfold MainText.dict_get_default, MainText.styles, dict_get.
    destruct (String.eqb_spec s "friendly") as [-> | _]; [reflexivity |].
    destruct (String.eqb_spec s "formal") as [-> | _]; [contradiction |].
    destruct (String.eqb_spec s "casual") as [-> | _]; [contradiction |].
    reflexivity. }
  assert (Hfriendly :
            MainText.dict_get_default MainText.styles (PStr "friendly")
              MainText.styles_friendly
            = ret (PStr "Please write a warm, friendly greeting"))
    by reflexivity.
  unfold MainText.greet_user. cbn [arg].
  rewrite Hchosen, Hfriendly, !bind_ret_l. cbn [py_format].
  rewrite !bind_lift_return.
  split; [reflexivity |]. split.
  - intros name_text Hname. rewrite Hname, bind_lift_return. reflexivity.
  - intros e Hname. rewrite Hname. reflexivity.
Qed.

Lemma unknown_style_is_friendly_witness :
  MainText.greet_user offline (PStr "Amina") (Some (PStr "Formal"))
    = MainText.greet_user offline (PStr "Amina") None
  /\ MainText.greet_user offline (PStr "Amina") (Some (PStr "Formal"))
     = ret "Please write a warm, friendly greeting for someone named Amina."
  /\ MainText.greet_user offline (PInt (10 ^ 4300)) (Some PNone)
     = throw int_too_long.
Proof.
  split; [| split].
  - exact (proj1 (unknown_style_is_friendly offline (PStr "Amina")
                    (PStr "Formal") eq_refl
                    ltac:(discriminate) ltac:(discriminate))).
  - apply (proj1 (proj2 (unknown_style_is_friendly offline (PStr "Amina")
                           (PStr "Formal") eq_refl
                           ltac:(discriminate) ltac:(discriminate)))
             "Amina").
    reflexivity.
  - apply (proj2 (proj2 (unknown_style_is_friendly offline
                           (PInt (10 ^ 4300)) PNone eq_refl
                           ltac:(discriminate) ltac:(discriminate)))
             int_too_long).
    vm_compute. reflexivity.
Defined.

(** X18: a style that cannot be hashed, a list or a dict, is not turned
    into the friendly default: the lookup raises [TypeError] and
    [greet_user] returns no prompt. *)
Theorem unhashable_style_raises (w : world) (name style : pyval) :
  MainText.hashable style = false ->
  MainText.greet_user w name (Some style)
    = throw (mk_exn TypeError
               ("unhashable type: '" ++ type_name style ++ "'")).
Proof.
  intros Hhash.
  destruct style; try discriminate Hhash; reflexivity.
Qed.

Lemma unhashable_style_raises_witness :
  MainText.greet_user offline (PStr "Amina") (Some (PList [PStr "formal"]))
    = throw (mk_exn TypeError "unhashable type: 'list'").
Proof.
  apply (unhashable_style_raises offline (PStr "Amina")
           (PList [PStr "formal"])).
  reflexivity.
Defined.

(** ** The handler of utils.py *)

Lemma dict_get_set_same (k : string) (v : pyval) (d : pydict) :
  dict_get k (dict_set k v d) = Some v.
Proof.
  induction d as [| [k' v'] d IH]; cbn.
  - rewrite String.eqb_refl. reflexivity.
  - destruct (String.eqb k k') eqn:Hk; cbn.
    + rewrite String.eqb_refl. reflexivity.
    + rewrite Hk. exact IH.
Qed.

Lemma dict_get_set_other (k k' : string) (v : pyval) (d : pydict) :
  k <> k' -> dict_get k (dict_set k' v d) = dict_get k d.
Proof.
  intros Hne. induction d as [| [k0 v0] d IH]; cbn.
  - apply String.eqb_neq in Hne. rewrite Hne. reflexivity.
  - destruct (String.eqb k' k0) eqn:Hk0; cbn.
    + apply String.eqb_eq in Hk0. subst k0.
      apply String.eqb_neq in Hne. rewrite Hne. reflexivity.
    + destruct (String.eqb k k0); [reflexivity | exact IH].
Qed.

Lemma dict_get_absent (k : string) (d : pydict) :
  ~ In k (map fst d) -> dict_get k d = None.
Proof.
  induction d as [| [k' v'] d IH]; cbn; [reflexivity |].
  intros Hnot. destruct (String.eqb_spec k k') as [-> | Hne].
  - exfalso. apply Hnot. left. reflexivity.
  - apply IH. intros Hin. apply Hnot. right. exact Hin.
Qed.

(** Looking a key up after [{**base, **extra}]. *)
Lemma dict_get_update (k : string) (extra base : pydict) :
  NoDup (map fst extra) ->
  dict_get k (Utils.dict_update base extra)
    = match dict_get k extra with
      | Some v => Some v
      | None => dict_get k base
      end.
Proof.
  revert base. induction extra as [| [k1 v1] extra IH]; intros base Hnd.
  - reflexivity.
  - inversion Hnd as [| ? ? Hnotin Hnd']; subst.
    unfold Utils.dict_update in *. cbn [fold_left fst snd].
    rewrite (IH _ Hnd'). cbn [dict_get].
    destruct (String.eqb_spec k k1) as [-> | Hne].
    + rewrite (dict_get_absent k1 extra Hnotin).
      apply dict_get_set_same.
    + rewrite (dict_get_set_other k k1 v1 base Hne). reflexivity.
Qed.

(** X19: the [context_id] argument of [_fetch_ad_data] is not protected
    from the filters: the parameters given to the client hold every filter
    as it is, and [context_id] holds the argument only when the filters
    have no [context_id] key of their own, which otherwise replaces it. *)
Theorem filters_override_context_id (api : Utils.api_client)
    (context_id : pyval) (filters : pydict) :
  NoDup (map fst filters) ->
  exists params,
    Utils._fetch_ad_data api context_id (PDict filters)
      = Utils.client_get api (PStr "/ad-context") (Some (PDict params))
    /\ forall k,
         dict_get k params
           = match dict_get k filters with
             | Some v => Some v
             | None =>
                 if String.eqb k "context_id" then Some context_id else None
             end.
Proof.
  intros Hnd.
  exists (Utils.dict_update [("context_id", context_id)] filters).
  split.
  - unfold Utils._fetch_ad_data, py_or.
    destruct filters; reflexivity.
  - intros k. rewrite (dict_get_update k filters _ Hnd). reflexivity.
Qed.

Lemma filters_override_context_id_witness :
  exists params,
    Utils._fetch_ad_data (answering (PDict [])) (PStr "ctx_1")
      (PDict [("channel", PStr "2m"); ("context_id", PStr "ctx_2")])
      = Utils.client_get (answering (PDict [])) (PStr "/ad-context")
          (Some (PDict params))
    /\ forall k,
         dict_get k params
           = match dict_get k [("channel", PStr "2m");
                               ("context_id", PStr "ctx_2")] with
             | Some v => Some v
             | None =>
                 if String.eqb k "context_id" then Some (PStr "ctx_1")
                 else None
             end.
Proof.
  apply (filters_override_context_id (answering (PDict [])) (PStr "ctx_1")
           [("channel", PStr "2m"); ("context_id", PStr "ctx_2")]).
  cbn. repeat constructor; cbn; intuition discriminate.
Defined.

Lemma equals_str_other (v : pyval) (n : string) :
  v <> PStr n -> Utils.equals_str v n = false.
Proof.
  intros Hne. destruct v; try reflexivity. cbn.
  apply String.eqb_neq. intros ->. apply Hne. reflexivity.
Qed.

(** The names of the tools that [register_tools] lists. *)
Lemma registered_name (tool : pyval) (n : string) :
  In tool Utils.register_tools ->
  field "name" tool = Some (PStr n) ->
  n = "get_ad_context" \/ n = "get_available_inventory"
  \/ n = "get_campaign_context".
Proof.
  intros Hin Hname.
  destruct Hin as [<- | [<- | [<- | []]]];
    cbn in Hname; injection Hname as <-; auto.
Qed.

(** X20: for every tool name it has no branch for, [handle_tool_call]
    returns nothing and calls the client for nothing, whatever the
    arguments are: it raises [ValueError] with the message
    [Unknown tool: <name>] when the name can be formatted, as every str
    can, and the exception of the formatting when it cannot. *)
Theorem unknown_tool_is_refused (w : world) (api : Utils.api_client)
    (now : string) (tool_name arguments : pyval) :
  (forall n, In n Utils.dispatched_names -> tool_name <> PStr n) ->
  (forall name_text,
     py_format w tool_name = Return name_text ->
     Utils.handle_tool_call w api now tool_name arguments
       = Utils.Failed
           (Utils.Known (mk_exn ValueError ("Unknown tool: " ++ name_text))))
  /\ (forall e,
        py_format w tool_name = Raise e ->
        Utils.handle_tool_call w api now tool_name arguments
          = Utils.Failed (Utils.Known e)).
Proof.
  intros Hunknown. unfold Utils.handle_tool_call.
  rewrite !equals_str_other
    by (apply Hunknown; cbn; auto).
  unfold Utils.formatted.
  split; intros ? Hname; rewrite Hname; reflexivity.
Qed.

Lemma unknown_tool_is_refused_witness :
  Utils.handle_tool_call offline (answering PNone) "2025-03-06T10:00:00"
    (PStr "get_channels") PNone
  = Utils.Failed
      (Utils.Known (mk_exn ValueError "Unknown tool: get_channels"))
  /\ Utils.handle_tool_call offline (answering PNone) "2025-03-06T10:00:00"
       (PInt (10 ^ 4300)) PNone
     = Utils.Failed (Utils.Known int_too_long).
Proof.
  split.
  - apply (proj1 (unknown_tool_is_refused offline (answering PNone)
                    "2025-03-06T10:00:00" (PStr "get_channels") PNone
                    ltac:(intros n Hin; cbn in Hin;
                          destruct Hin as [<- | [<- | [<- | [<- | []]]]];
                          discriminate))
             "get_channels").
    reflexivity.
  - apply (proj2 (unknown_tool_is_refused offline (answering PNone)
                    "2025-03-06T10:00:00" (PInt (10 ^ 4300)) PNone
                    ltac:(intros n Hin; discriminate))
             int_too_long).
    vm_compute. reflexivity.
Defined.

(** X21: every tool that [register_tools] lists is handled by
    [handle_tool_call]: called with a dict of arguments whose [filters]
    are a dict or falsy and whose [campaign_id] can be formatted into the
    path, and a client that answers, it returns a dict tagged with the
    protocol [adcp/1.0]. *)
Theorem registered_tools_are_handled (w : world) (v : pyval) (now : string)
    (tool : pyval) (n : string) (args : pydict) :
  In tool Utils.register_tools ->
  field "name" tool = Some (PStr n) ->
  Utils.mapping_or_falsy (Utils.argument "filters" args) = true ->
  formats w (Utils.argument "campaign_id" args) = true ->
  exists d,
    Utils.handle_tool_call w (answering v) now (PStr n) (PDict args)
      = Utils.Done (PDict d)
    /\ dict_get "protocol" d = Some (PStr "adcp/1.0").
Proof.
  intros Hin Hname Hfilters Hformats.
  destruct (registered_name tool n Hin Hname) as [-> | [-> | ->]];
    unfold Utils.handle_tool_call; cbn.
  - fold (Utils.argument "filters" args).
    unfold Utils.get_ad_context, Utils._fetch_ad_data, py_or, arg.
    destruct (Utils.argument "filters" args) as [| b | z | f | s | l | d];
      cbn in Hfilters |- *;
      try (destruct (truthy _); [discriminate Hfilters |]);
      try (rewrite (proj1 (negb_true_iff _) Hfilters));
      cbn; try (eexists; split; reflexivity).
    destruct d; cbn; eexists; split; reflexivity.
  - eexists. split; reflexivity.
  - fold (Utils.argument "campaign_id" args).
    unfold Utils.get_campaign_context, Utils.formatted.
    unfold formats in Hformats.
    destruct (py_format w (Utils.argument "campaign_id" args));
      [| discriminate Hformats].
    eexists. split; reflexivity.
Qed.

Lemma registered_tools_are_handled_witness :
  exists d,
    Utils.handle_tool_call offline (answering (PList [])) "2025-03-06T10:00:00"
      (PStr "get_campaign_context") (PDict [("campaign_id", PStr "mb_1")])
      = Utils.Done (PDict d)
    /\ dict_get "protocol" d = Some (PStr "adcp/1.0").
Proof.
  apply (registered_tools_are_handled offline (PList [])
           "2025-03-06T10:00:00"
           (PDict [("name", PStr "get_campaign_context");
                   ("description",
                    PStr "Get campaign-specific advertising context");
                   ("input_schema",
                    PDict [("type", PStr "object");
                           ("properties",
                            PDict [("campaign_id",
                                    PDict [("type", PStr "string")])]);
                           ("required", PList [PStr "campaign_id"])])])
           "get_campaign_context" [("campaign_id", PStr "mb_1")]).
  - right. right. left. reflexivity.
  - reflexivity.
  - reflexivity.
  - reflexivity.
Defined.

(** X22: the keys that the schemas of [register_tools] mark as required
    are not checked by [handle_tool_call]: when [channel] and [date] are
    missing from the arguments, [get_available_inventory] asks the client
    for the inventory of channel [None] on date [None] and returns its
    answer with these two fields set to [None]. *)
Theorem missing_arguments_become_none (w : world) (api : Utils.api_client)
    (now : string) (args : pydict) (inventory : pyval) :
  dict_get "channel" args = None ->
  dict_get "date" args = None ->
  Utils.api_get api (PStr "/inventory")
    (Some (PDict [("channel", PNone); ("date", PNone)])) = Return inventory ->
  Utils.handle_tool_call w api now (PStr "get_available_inventory")
    (PDict args)
  = Utils.Done (PDict [("protocol", PStr "adcp/1.0");
                       ("type", PStr "inventory");
                       ("channel", PNone);
                       ("date", PNone);
                       ("inventory", inventory)]).
Proof.
  intros Hchannel Hdate Hget.
  unfold Utils.handle_tool_call. cbn.
  rewrite Hchannel, Hdate.
  unfold Utils.get_available_inventory, Utils.client_get.
  rewrite Hget. reflexivity.
Qed.

Lemma missing_arguments_become_none_witness :
  Utils.handle_tool_call offline (answering (PList [])) "2025-03-06T10:00:00"
    (PStr "get_available_inventory") (PDict [])
  = Utils.Done (PDict [("protocol", PStr "adcp/1.0");
                       ("type", PStr "inventory");
                       ("channel", PNone);
                       ("date", PNone);
                       ("inventory", PList [])]).
Proof.
  apply (missing_arguments_become_none offline (answering (PList []))
           "2025-03-06T10:00:00" [] (PList [])); reflexivity.
Defined.

(** X23: utils.py catches nothing: when the client raises, every
    registered tool of [handle_tool_call] that reaches the client (its
    [filters] are a dict or falsy, its [campaign_id] can be formatted)
    lets that exception through to its caller, where the tools of
    server.py would return an error dict. *)
Theorem client_errors_propagate (w : world) (e : exn) (now : string)
    (tool : pyval) (n : string) (args : pydict) :
  In tool Utils.register_tools ->
  field "name" tool = Some (PStr n) ->
  Utils.mapping_or_falsy (Utils.argument "filters" args) = true ->
  formats w (Utils.argument "campaign_id" args) = true ->
  Utils.handle_tool_call w (failing e) now (PStr n) (PDict args)
    = Utils.Failed (Utils.Known e).
Proof.
  intros Hin Hname Hfilters Hformats.
  destruct (registered_name tool n Hin Hname) as [-> | [-> | ->]];
    unfold Utils.handle_tool_call; cbn.
  - fold (Utils.argument "filters" args).
    unfold Utils.get_ad_context, Utils._fetch_ad_data, py_or, arg.
    destruct (Utils.argument "filters" args) as [| b | z | f | s | l | d];
      cbn in Hfilters |- *;
      try (destruct (truthy _); [discriminate Hfilters |]);
      try (rewrite (proj1 (negb_true_iff _) Hfilters));
      cbn; try reflexivity.
    destruct d; reflexivity.
  - reflexivity.
  - fold (Utils.argument "campaign_id" args).
    unfold Utils.get_campaign_context, Utils.formatted.
    unfold formats in Hformats.
    destruct (py_format w (Utils.argument "campaign_id" args));
      [reflexivity | discriminate Hformats].
Qed.

Lemma client_errors_propagate_witness :
  Utils.handle_tool_call offline (failing refused) "2025-03-06T10:00:00"
    (PStr "get_campaign_context") (PDict [("campaign_id", PStr "mb_1")])
  = Utils.Failed (Utils.Known refused).
Proof.
  apply (client_errors_propagate offline refused "2025-03-06T10:00:00"
           (PDict [("name", PStr "get_campaign_context");
                   ("description",
                    PStr "Get campaign-specific advertising context");
                   ("input_schema",
                    PDict [("type", PStr "object");
                           ("properties",
                            PDict [("campaign_id",
                                    PDict [("type", PStr "string")])]);
                           ("required", PList [PStr "campaign_id"])])])
           "get_campaign_context" [("campaign_id", PStr "mb_1")]).
  - right. right. left. reflexivity.
  - reflexivity.
  - reflexivity.
  - reflexivity.
Defined.

(** X24: arguments that are not a dict make every registered tool of
    [handle_tool_call] fail with [AttributeError] at its first
    [arguments.get], before the client is called. *)
Theorem non_dict_arguments_fail (w : world) (api : Utils.api_client)
    (now : string) (tool : pyval) (n : string) (arguments : pyval) :
  In tool Utils.register_tools ->
  field "name" tool = Some (PStr n) ->
  (forall d, arguments <> PDict d) ->
  Utils.handle_tool_call w api now (PStr n) arguments
    = Utils.Failed
        (Utils.AttributeError
           ("'" ++ type_name arguments ++ "' object has no attribute 'get'")).
Proof.
  intros Hin Hname Hnot.
  destruct (registered_name tool n Hin Hname) as [-> | [-> | ->]];
    unfold Utils.handle_tool_call; cbn;
    destruct arguments; try reflexivity;
    exfalso; eapply Hnot; reflexivity.
Qed.

Lemma non_dict_arguments_fail_witness :
  Utils.handle_tool_call offline (answering PNone) "2025-03-06T10:00:00"
    (PStr "get_available_inventory") PNone
  = Utils.Failed
      (Utils.AttributeError "'NoneType' object has no attribute 'get'").
Proof.
  apply (non_dict_arguments_fail offline (answering PNone)
           "2025-03-06T10:00:00"
           (PDict [("name", PStr "get_available_inventory");
                   ("description",
                    PStr "Get available ad inventory for a channel and date");
                   ("input_schema",
                    PDict [("type", PStr "object");
                           ("properties",
                            PDict [("channel", PDict [("type", PStr "string")]);
                                   ("date", PDict [("type", PStr "string")])]);
                           ("required", PList [PStr "channel"; PStr "date"])])])
           "get_available_inventory" PNone).
  - right. left. reflexivity.
  - reflexivity.
  - intros d. discriminate.
Defined.
